(** * Product variant creation: validation and persistence

    A shallow embedding of
    [saleor/graphql/product/mutations/product_variant/product_variant_create.py]
    (class [ProductVariantCreate]) together with the properties its
    specification states about it.

    Python dictionaries keyed by strings are finite maps ([gmap string _]),
    Python sets of strings are finite sets ([gset string]), a raised
    exception is the left injection of a sum, and the objects the
    code mutates (the registry of used attribute values, the instance, the
    database) are threaded through explicitly. *)

From Stdlib Require Import ZArith QArith Ascii String DecimalString.
From stdpp Require Import gmap strings list fin_maps fin_sets.

Local Open Scope Z_scope.
Local Open Scope string_scope.
Local Open Scope list_scope.

(** ** Errors *)

(** The members of [ProductErrorCode] this module raises; any other member
    (raised by a collaborator) is kept by name. *)
Inductive ProductErrorCode : Type :=
  | ATTRIBUTE_CANNOT_BE_ASSIGNED
  | DUPLICATED_INPUT_ITEM
  | INVALID
  | REQUIRED
  | UNIQUE
  | OTHER_CODE (name : string).

(** Django's [ValidationError]: a message with a code and optional
    [params], a list of errors, or a dictionary from field names to errors
    (the error under a field stands for its [error_list]).  The only
    [params] this module attaches are collections of attribute ids. *)
#[warnings="-register-all"]
Inductive ValidationError : Type :=
  | VError (message : string) (code : ProductErrorCode)
           (params : option (gset string))
  | VErrorList (errors : list ValidationError)
  | VErrorDict (fields : list (string * ValidationError)).

(** What a call can raise: a [ValidationError], an error of the database,
    or Python's [AttributeError]. *)
Inductive Exception : Type :=
  | Invalid (exc : ValidationError)
  | DatabaseError (message : string)
  | AttributeError (message : string).

(** The outcome of a call that may raise. *)
Definition Result (A : Type) : Type := Exception + A.

Definition ok {A} (a : A) : Result A := inr a.

(** [raise exc] for a [ValidationError] *)
Definition raise {A} (e : ValidationError) : Result A := inl (Invalid e).

Global Instance Result_bind : MBind Result :=
  fun A B (k : A -> Result B) (r : Result A) =>
    match r with
    | inl e => inl e
    | inr a => k a
    end.

(** [try: r except ValidationError as exc: raise ValidationError({field: exc})].
    The dictionary takes [exc.error_list], which an error made from a
    message or from a list has and an error made from a dictionary has not:
    for that one Python raises [AttributeError].  Any other exception is not
    caught. *)
Definition reraise_under {A} (field : string) (r : Result A) : Result A :=
  match r with
  | inl (Invalid (VErrorDict _)) =>
      inl (AttributeError
             "'ValidationError' object has no attribute 'error_list'")
  | inl (Invalid exc) => raise (VErrorDict [(field, exc)])
  | inl other => inl other
  | inr a => inr a
  end.

(** ** Data model *)

(** Modelled from the spec: [AttributeInputType] is declared outside this
    module, its members are "PLAIN_TEXT, FILE, DROPDOWN, ..."; the code only
    tests for [FILE]. *)
Inductive AttributeInputType : Type :=
  | FILE
  | DROPDOWN
  | PLAIN_TEXT
  | OTHER_INPUT_TYPE (name : string).

Global Instance AttributeInputType_eq_dec : EqDecision AttributeInputType.
Proof. solve_decision. Defined.

Record Attribute : Type := {
  attribute_pk : Z;
  input_type : AttributeInputType;
  value_required : bool
}.

Global Instance Attribute_eq_dec : EqDecision Attribute.
Proof. solve_decision. Defined.

(** The fields of [AttrValuesInput] that this module reads. *)
Record AttrValuesInput : Type := {
  global_id : string;
  values : list string;
  file_url : option string
}.

Definition T_INPUT_MAP : Type := list (Attribute * AttrValuesInput).

(** One raw [AttributeValueInput]; this module reads its ["id"] only, the
    rest is handed to the attribute cleaner. *)
Record AttributeValueInput : Type := {
  attribute_id : string;
  input_values : list string;
  input_file : option string
}.

Record ProductType : Type := {
  has_variants : bool;
  variant_attributes : list Attribute
}.

(** The in-memory product object: its key, its default-variant pointer (the
    key of a variant) and its type. *)
Record Product : Type := {
  product_pk : Z;
  default_variant : option Z;
  product_type : ProductType
}.

(** The in-memory variant object ([instance]).  [product] is read by
    [clean_input] only when the instance has a key, and by [save]. *)
Record ProductVariant : Type := {
  pk : option Z;
  name : option string;
  product : Product
}.

Record StockInput : Type := {
  warehouse : string;
  quantity : Z
}.

(** A weight; its [value] is a finite float, read as the rational it
    denotes. *)
Record Weight : Type := {
  value : Q
}.

(** [PreorderSettingsInput] as a dictionary: the outer [option] of a field
    says whether the key is there, the inner one is the value or [None]. *)
Record PreorderSettingsInput : Type := {
  global_threshold : option (option Z);
  end_date : option (option Z)
}.

(** The dictionary [cleaned_input].  A field is [None] when its key is
    missing or holds [None]; ["sku"] also records whether the key is there.
    Under ["attributes"] the dictionary first holds the raw input list and,
    once cleaned, the list of pairs: [A] is the type of its items. *)
Record CleanedInput (A : Type) : Type := {
  weight : option Weight;
  quantity_limit_per_customer : option Z;
  stocks : option (list StockInput);
  input_product : Product;
  attributes : option (list A);
  sku : option (option string);
  preorder : option PreorderSettingsInput;
  is_preorder : option bool;
  preorder_global_threshold : option Z;
  preorder_end_date : option Z
}.

Arguments weight {A} _.
Arguments quantity_limit_per_customer {A} _.
Arguments stocks {A} _.
Arguments input_product {A} _.
Arguments attributes {A} _.
Arguments sku {A} _.
Arguments preorder {A} _.
Arguments is_preorder {A} _.
Arguments preorder_global_threshold {A} _.
Arguments preorder_end_date {A} _.

(** ** Truthiness *)

(** [bool(s)] for an optional string: [None] and [""] are false. *)
Definition str_truthy (s : option string) : bool :=
  match s with
  | Some (String _ _) => true
  | _ => false
  end.

(** [bool(l)] for an optional list: [None] and [[]] are false. *)
Definition list_truthy {A} (l : option (list A)) : bool :=
  match l with
  | Some (_ :: _) => true
  | _ => false
  end.

(** [bool(instance.pk)]: [None] and [0] are false. *)
Definition pk_truthy (k : option Z) : bool :=
  match k with
  | Some n => negb (Z.eqb n 0)
  | None => false
  end.

(** [bool(preorder_settings)]: a dictionary is true when it has a key. *)
Definition preorder_truthy (p : option PreorderSettingsInput) : bool :=
  match p with
  | Some s =>
      match global_threshold s, end_date s with
      | None, None => false
      | _, _ => true
      end
  | None => false
  end.

(** ** Strings *)

(** [s.split(sep)] for a one-character separator: never empty. *)
Fixpoint split (sep : ascii) (s : string) : list string :=
  match s with
  | EmptyString => [EmptyString]
  | String c rest =>
      if Ascii.eqb c sep then EmptyString :: split sep rest
      else match split sep rest with
           | head :: tail => String c head :: tail
           | [] => [String c EmptyString]
           end
  end.

(** [l[-1]] on a non-empty list of strings. *)
Definition last_item (l : list string) : string := default "" (last l).

(** [sep.join(l)] *)
Fixpoint join (sep : string) (l : list string) : string :=
  match l with
  | [] => ""
  | [x] => x
  | x :: rest => (x ++ sep ++ join sep rest)%string
  end.

(** ** Duplicate configuration detector *)

Section Detector.

(** [django.utils.text.slugify], a library function. *)
Variable slugify : string -> string.

(** The [values] one [(attr, attr_data)] pair contributes (the body of
    the loop before [extend]). *)
Definition attr_values (attr : Attribute) (attr_data : AttrValuesInput)
  : list string :=
  if decide (input_type attr = FILE) then
    if str_truthy (file_url attr_data)
    then [slugify (last_item (split "/" (default "" (file_url attr_data))))]
    else []
  else values attr_data.

(** [d[key].extend(vs)] on a [defaultdict(list)]. *)
Definition extend (d : gmap string (list string)) (key : string)
    (vs : list string) : gmap string (list string) :=
  <[key := default [] (d !! key) ++ vs]> d.

(** The loop of [validate_duplicated_attribute_values], started from the
    dictionary [d]. *)
Fixpoint collect (attributes_data : T_INPUT_MAP)
    (d : gmap string (list string)) : gmap string (list string) :=
  match attributes_data with
  | [] => d
  | (attr, attr_data) :: rest =>
      collect rest
        (extend d (global_id attr_data) (attr_values attr attr_data))
  end.

(** The dictionary [attribute_values] after the loop. *)
Definition attribute_values (attributes_data : T_INPUT_MAP)
  : gmap string (list string) :=
  collect attributes_data ∅.

Definition duplicated_error (d : gmap string (list string))
  : ValidationError :=
  VError "Duplicated attribute values for product variant."
         DUPLICATED_INPUT_ITEM (Some (dom d)).

(** [used_attribute_values] is a Python list that the call may append
    to: the outcome comes with the list as the call leaves it.  [x in l]
    compares with [==], which on dictionaries of lists of strings is
    equality of finite maps. *)
Definition validate_duplicated_attribute_values
    (attributes_data : T_INPUT_MAP)
    (used_attribute_values : list (gmap string (list string)))
  : Result unit * list (gmap string (list string)) :=
  let d := attribute_values attributes_data in
  if decide (d ∈ used_attribute_values)
  then (raise (duplicated_error d), used_attribute_values)
  else (ok tt, used_attribute_values ++ [d]).

(** Successive calls on one list object: each candidate is validated
    against the registry as the calls before it left it; the outcomes are
    recorded in order. *)
Fixpoint validate_each (candidates : list T_INPUT_MAP)
    (used_attribute_values : list (gmap string (list string)))
  : list (Result unit) * list (gmap string (list string)) :=
  match candidates with
  | [] => ([], used_attribute_values)
  | candidate :: rest =>
      let '(outcome, used) :=
        validate_duplicated_attribute_values candidate
          used_attribute_values in
      let '(outcomes, used') := validate_each rest used in
      (outcome :: outcomes, used')
  end.

End Detector.

(** ** Stock input *)

(** How often [v] occurs in [l]: [l.count(v)]. *)
Definition count (v : string) (l : list string) : nat :=
  length (filter (fun w => w = v) l).

(** Modelled from the spec: [get_duplicated_values] is defined outside this
    module; it returns the ids that repeat, each once ("if any id repeats",
    "[W1, W2, W1] ... listing W1"). *)
Definition get_duplicated_values (l : list string) : gset string :=
  list_to_set (filter (fun v => (1 < count v l)%nat) l).

Section Stocks.

(** The order in which Python iterates over a set of strings. *)
Variable set_order : gset string -> list string.

Definition duplicated_warehouse_error (duplicates : gset string)
  : ValidationError :=
  VErrorDict
    [("stocks",
      VError ("Duplicated warehouse ID: " ++ join ", " (set_order duplicates))
             UNIQUE None)].

Definition check_for_duplicates_in_stocks (stocks_data : list StockInput)
  : Result unit :=
  let warehouse_ids := map warehouse stocks_data in
  let duplicates := get_duplicated_values warehouse_ids in
  if decide (duplicates ≠ ∅)
  then raise (duplicated_warehouse_error duplicates)
  else ok tt.

End Stocks.

(** ** Cleaning the input *)

Section CleanInput.

Variable slugify : string -> string.
Variable set_order : gset string -> list string.

(** [graphene.Node.to_global_id], a library function. *)
Variable to_global_id : string -> Z -> string.

(** [AttributeAssignmentMixin.clean_input], defined outside this module:
    from the raw attribute inputs and the attributes of the product type
    to the cleaned pairs, or a [ValidationError]. *)
Variable AttributeAssignmentMixin_clean_input :
  list AttributeValueInput -> list Attribute -> Result T_INPUT_MAP.

(** [get_used_variants_attribute_values], defined outside this module:
    the signatures of the variants the product already has. *)
Variable get_used_variants_attribute_values :
  Product -> list (gmap string (list string)).

(** [clean_variant_sku], defined outside this module. *)
Variable clean_variant_sku : option string -> Result (option string).

Definition clean_attributes (attributes : list AttributeValueInput)
    (product_type : ProductType) : Result T_INPUT_MAP :=
  let attributes_qs := variant_attributes product_type in
  AttributeAssignmentMixin_clean_input attributes attributes_qs.

Definition negative_weight_error : ValidationError :=
  VErrorDict
    [("weight",
      VError "Product variant can't have negative weight." INVALID None)].

(** Lines 163-172, [weight and weight.value < 0]: a weight object counts
    as true unless its value is 0, so the comparison decides. *)
Definition check_weight (weight : option Weight) : Result unit :=
  match weight with
  | Some w =>
      if Qlt_le_dec (value w) 0 then raise negative_weight_error
      else ok tt
  | None => ok tt
  end.

Definition quantity_limit_error : ValidationError :=
  VErrorDict
    [("quantity_limit_per_customer",
      VError
        "Product variant can't have quantity_limit_per_customer lower than 1."
        INVALID None)].

(** Lines 174-186. *)
Definition check_quantity_limit_per_customer (limit : option Z)
  : Result unit :=
  match limit with
  | Some n => if (n <? 1)%Z then raise quantity_limit_error else ok tt
  | None => ok tt
  end.

(** Lines 188-190. *)
Definition check_stocks (stocks : option (list StockInput)) : Result unit :=
  if list_truthy stocks
  then check_for_duplicates_in_stocks set_order (default [] stocks)
  else ok tt.

(** Lines 205-210: the global ids of the attributes of the product type. *)
Definition variant_attributes_ids (product_type : ProductType)
  : gset string :=
  list_to_set
    (map (fun attr_id => to_global_id "Attribute" attr_id)
         (map attribute_pk (variant_attributes product_type))).

(** Line 212: [{attr["id"] for attr in attributes or []}]. *)
Definition attributes_ids (attributes : option (list AttributeValueInput))
  : gset string :=
  list_to_set (map attribute_id (default [] attributes)).

Definition invalid_attributes (product_type : ProductType)
    (attributes : option (list AttributeValueInput)) : gset string :=
  attributes_ids attributes ∖ variant_attributes_ids product_type.

Definition cannot_be_assigned_error (invalid : gset string)
  : ValidationError :=
  VError "Given attributes are not a variant attributes."
         ATTRIBUTE_CANNOT_BE_ASSIGNED (Some invalid).

(** Lines 205-219: every supplied attribute id must be one of the product
    type's. *)
Definition check_attributes_ids (product_type : ProductType)
    (attributes : option (list AttributeValueInput)) : Result unit :=
  let invalid := invalid_attributes product_type attributes in
  if decide (0 < size invalid)%nat
  then raise (cannot_be_assigned_error invalid)
  else ok tt.

Definition required_error : ValidationError :=
  VError "All required attributes must take a value." REQUIRED None.

Definition cannot_assign_error : ValidationError :=
  VError "Cannot assign attributes for product type without variants"
         INVALID None.

(** An [attributes] value that is false ([None] or [[]]) and stays in the
    dictionary as it is. *)
Definition untouched {A B} (attributes : option (list A))
  : option (list B) :=
  match attributes with
  | Some _ => Some []
  | None => None
  end.

(** Lines 221-251: the result is the value under ["attributes"]
    afterwards. *)
Definition clean_variant_attributes (instance : ProductVariant)
    (product_type : ProductType)
    (used_attribute_values : list (gmap string (list string)))
    (attributes : option (list AttributeValueInput))
  : Result (option (list (Attribute * AttrValuesInput))) :=
  if has_variants product_type then
    reraise_under "attributes"
      (if list_truthy attributes then
         cleaned_attributes ← clean_attributes (default [] attributes)
                                product_type;
         (validate_duplicated_attribute_values slugify cleaned_attributes
            used_attribute_values).1;;
         ok (Some cleaned_attributes)
       else if negb (pk_truthy (pk instance))
               && (negb (list_truthy attributes)
                   && list_truthy
                        (Some (filter (fun a => value_required a = true)
                                      (variant_attributes product_type))))
       then raise required_error
       else ok (untouched attributes))
  else
    if list_truthy attributes then raise cannot_assign_error
    else ok (untouched attributes).

(** Lines 253-254. *)
Definition clean_sku (sku : option (option string))
  : Result (option (option string)) :=
  match sku with
  | Some s => s' ← clean_variant_sku s; ok (Some s')
  | None => ok None
  end.

(** [preorder_settings.get(key)] *)
Definition get {A} (key : PreorderSettingsInput -> option (option A))
    (preorder_settings : option PreorderSettingsInput) : option A :=
  match preorder_settings with
  | Some settings => default None (key settings)
  | None => None
  end.

(** Lines 157-264, after [super().clean_input] has returned
    [cleaned_input]. *)
Definition clean_input (instance : ProductVariant)
    (cleaned_input : CleanedInput AttributeValueInput)
  : Result (CleanedInput (Attribute * AttrValuesInput)) :=
  check_weight (weight cleaned_input);;
  check_quantity_limit_per_customer
    (quantity_limit_per_customer cleaned_input);;
  check_stocks (stocks cleaned_input);;
  let parent :=
    if pk_truthy (pk instance) then product instance
    else input_product cleaned_input in
  let used_attribute_values := get_used_variants_attribute_values parent in
  check_attributes_ids (product_type parent) (attributes cleaned_input);;
  cleaned_attributes ←
    clean_variant_attributes instance (product_type parent)
      used_attribute_values (attributes cleaned_input);
  cleaned_sku ← clean_sku (sku cleaned_input);
  let preorder_settings := preorder cleaned_input in
  let set := preorder_truthy preorder_settings in
  ok {| weight := weight cleaned_input;
        quantity_limit_per_customer :=
          quantity_limit_per_customer cleaned_input;
        stocks := stocks cleaned_input;
        input_product := input_product cleaned_input;
        attributes := cleaned_attributes;
        sku := cleaned_sku;
        preorder := preorder_settings;
        is_preorder :=
          if set then Some true else is_preorder cleaned_input;
        preorder_global_threshold :=
          if set then get global_threshold preorder_settings
          else preorder_global_threshold cleaned_input;
        preorder_end_date :=
          if set then get end_date preorder_settings
          else preorder_end_date cleaned_input |}.

End CleanInput.

(** ** Persistence *)

(** A row of the product table: the two columns [save] writes, and every
    other column by name. *)
Record ProductRow : Type := {
  row_default_variant : option Z;
  row_updated_at : Z;
  row_columns : gmap string string
}.

(** A row of the variant table. *)
Record VariantRow : Type := {
  row_product : Z;
  row_name : option string
}.

(** The database: product rows and variant rows by key, the ids of the
    warehouses, stock rows (variant, warehouse id, quantity) and attribute
    rows (variant, attribute id, values). *)
Record Store : Type := {
  products : gmap Z ProductRow;
  variants : gmap Z VariantRow;
  warehouses : gset string;
  stock_rows : list (Z * string * Z);
  attribute_rows : list (Z * string * list string)
}.

(** A database operation: it may write before it raises. *)
Definition Db (A : Type) : Type := Store -> (Exception + A) * Store.

Inductive LifecycleEvent : Type :=
  | product_variant_created
  | product_variant_updated.

(** Everything [save] acts on: the database, the queue of the price
    recalculation task (product keys) and the events handed to
    [call_event], each with the key of its variant. *)
Record World : Type := {
  store : Store;
  price_tasks : list Z;
  events : list (LifecycleEvent * option Z)
}.

(** A step of [save]: effects made before an exception stay. *)
Definition M (A : Type) : Type := World -> (Exception + A) * World.

Global Instance M_ret : MRet M := fun A (a : A) (w : World) => (inr a, w).

Global Instance M_bind : MBind M :=
  fun A B (k : A -> M B) (m : M A) (w : World) =>
    match m w with
    | (inl exc, w') => (inl exc, w')
    | (inr a, w') => k a w'
    end.

Definition with_store (s : Store) (w : World) : World :=
  {| store := s; price_tasks := price_tasks w; events := events w |}.

(** A database operation as a step. *)
Definition query {A} (op : Db A) : M A :=
  fun w => let '(r, s) := op (store w) in (r, with_store s w).

(** Modelled from the spec: [traced_atomic_transaction] is defined outside
    this module; "executed as a single atomic transaction; all steps succeed
    together or none are visible", "failure at any step aborts the whole
    transaction".  When the block raises, the database is what it was on
    entry. *)
Definition traced_atomic_transaction {A} (block : M A) : M A :=
  fun w =>
    match block w with
    | (inl exc, w') => (inl exc, with_store (store w) w')
    | (inr a, w') => (inr a, w')
    end.

(** [update_product_discounted_price_task.delay(product_id)] *)
Definition delay (product_id : Z) : M unit :=
  fun w =>
    (inr tt, {| store := store w;
                price_tasks := price_tasks w ++ [product_id];
                events := events w |}).

(** [cls.call_event(event_to_call, instance)] *)
Definition call_event (event_to_call : LifecycleEvent)
    (instance : ProductVariant) : M unit :=
  fun w =>
    (inr tt, {| store := store w;
                price_tasks := price_tasks w;
                events := events w ++ [(event_to_call, pk instance)] |}).

(** The operations [save] calls that are defined outside this module. *)
Class Collaborators : Type := {
  (** [instance.save()]: writes the variant row and returns its key, which
      an instance without a key takes *)
  model_save : ProductVariant -> Db Z;
  (** the time an [auto_now] column is set to *)
  now : Z;
  (** [cls.get_nodes_or_error(warehouse_ids, "warehouse", ...)] *)
  get_nodes_or_error : list string -> Db (list string);
  create_stocks : ProductVariant -> list StockInput -> list string -> Db unit;
  (** [AttributeAssignmentMixin.save(instance, attributes)] *)
  AttributeAssignmentMixin_save : ProductVariant -> T_INPUT_MAP -> Db unit;
  (** returns the name it has set on the variant *)
  generate_and_set_variant_name :
    ProductVariant -> option string -> Db (option string);
  update_product_search_vector : Product -> Db unit
}.

Section Save.

Context `{Collaborators}.

(** [product.save(update_fields=["default_variant", "updated_at"])]:
    the two columns of the product's row are written, [updated_at] with
    the current time; without such a row the call raises. *)
Definition product_save_default_variant (product : Product) : Db unit :=
  fun s =>
    match products s !! product_pk product with
    | Some row =>
        (inr tt,
         {| products :=
              <[product_pk product :=
                  {| row_default_variant := default_variant product;
                     row_updated_at := now;
                     row_columns := row_columns row |}]> (products s);
            variants := variants s;
            warehouses := warehouses s;
            stock_rows := stock_rows s;
            attribute_rows := attribute_rows s |})
    | None =>
        (inl (DatabaseError
                "Save with update_fields did not affect any rows."), s)
    end.

(** Lines 327-329; the instance afterwards is returned. *)
Definition set_default_variant (instance : ProductVariant)
  : M ProductVariant :=
  match default_variant (product instance) with
  | None =>
      let product' :=
        {| product_pk := product_pk (product instance);
           default_variant := pk instance;
           product_type := product_type (product instance) |} in
      query (product_save_default_variant product');;
      mret {| pk := pk instance; name := name instance;
              product := product' |}
  | Some _ => mret instance
  end.

Definition create_variant_stocks (variant : ProductVariant)
    (stocks : list StockInput) : M unit :=
  let warehouse_ids := map warehouse stocks in
  warehouses ← query (get_nodes_or_error warehouse_ids);
  query (create_stocks variant stocks warehouses).

(** Lines 326-350, the block under [with traced_atomic_transaction()].
    ([load_plugin_manager] only gives the two event functions.) *)
Definition save_block (new_variant : bool) (instance : ProductVariant)
    (cleaned_input : CleanedInput (Attribute * AttrValuesInput))
  : M ProductVariant :=
  key ← query (model_save instance);
  let instance :=
    {| pk := Some (default key (pk instance)); name := name instance;
       product := product instance |} in
  instance ← set_default_variant instance;
  delay (product_pk (product instance));;
  (if list_truthy (stocks cleaned_input)
   then create_variant_stocks instance (default [] (stocks cleaned_input))
   else mret tt);;
  (if list_truthy (attributes cleaned_input)
   then query (AttributeAssignmentMixin_save instance
                 (default [] (attributes cleaned_input)))
   else mret tt);;
  instance ←
    (if negb (str_truthy (name instance))
     then
       name' ← query (generate_and_set_variant_name instance
                        (default None (sku cleaned_input)));
       mret {| pk := pk instance; name := name';
               product := product instance |}
     else mret instance);
  query (update_product_search_vector (product instance));;
  let event_to_call :=
    if new_variant then product_variant_created
    else product_variant_updated in
  call_event event_to_call instance;;
  mret instance.

(** [save]: the instance as the call leaves it is returned. *)
Definition save (instance : ProductVariant)
    (cleaned_input : CleanedInput (Attribute * AttrValuesInput))
  : M ProductVariant :=
  let new_variant := bool_decide (pk instance = None) in
  traced_atomic_transaction (save_block new_variant instance cleaned_input).

End Save.

(** ** Notions used to state the properties *)

(** The global ids of an assignment, in order. *)
Definition ids (attributes_data : T_INPUT_MAP) : list string :=
  map (fun p => global_id p.2) attributes_data.

(** What the pairs that carry [key] contribute, in order of appearance. *)
Fixpoint values_under (slugify : string -> string) (key : string)
    (attributes_data : T_INPUT_MAP) : list string :=
  match attributes_data with
  | [] => []
  | (attr, attr_data) :: rest =>
      (if decide (global_id attr_data = key)
       then attr_values slugify attr attr_data else [])
      ++ values_under slugify key rest
  end.

(** Whether the character [c] occurs in [s]. *)
Fixpoint occurs (c : ascii) (s : string) : bool :=
  match s with
  | EmptyString => false
  | String c' rest => Ascii.eqb c' c || occurs c rest
  end.

(** The checks of [clean_input] that come before the attributes (lines
    163-190) all pass. *)
Definition field_checks_pass (set_order : gset string -> list string) {A}
    (cleaned_input : CleanedInput A) : Prop :=
  check_weight (weight cleaned_input) = ok tt
  /\ check_quantity_limit_per_customer
       (quantity_limit_per_customer cleaned_input) = ok tt
  /\ check_stocks set_order (stocks cleaned_input) = ok tt.

(** The product whose type and variants [clean_input] looks at. *)
Definition parent {A} (instance : ProductVariant)
    (cleaned_input : CleanedInput A) : Product :=
  if pk_truthy (pk instance) then product instance
  else input_product cleaned_input.

(** Whether an outcome is an acceptance. *)
Definition accepted (outcome : Result unit) : bool :=
  match outcome with
  | inr _ => true
  | inl _ => false
  end.

(** The default-variant column of the product table. *)
Definition pointers (s : Store) : gmap Z (option Z) :=
  row_default_variant <$> products s.

(** A database operation that leaves the default-variant column alone. *)
Definition keeps_pointers {A} (op : Db A) : Prop :=
  forall s, pointers (op s).2 = pointers s.

Definition keep_default_variant (C : Collaborators) : Prop :=
  (forall instance, keeps_pointers (model_save instance))
  /\ (forall warehouse_ids, keeps_pointers (get_nodes_or_error warehouse_ids))
  /\ (forall variant stocks found,
        keeps_pointers (create_stocks variant stocks found))
  /\ (forall instance attributes,
        keeps_pointers (AttributeAssignmentMixin_save instance attributes))
  /\ (forall instance sku,
        keeps_pointers (generate_and_set_variant_name instance sku))
  /\ (forall product, keeps_pointers (update_product_search_vector product)).

(** A step that leaves the observation [f] of the world alone, whether it
    raises or not. *)
Definition preserves {T A} (f : World -> T) (m : M A) : Prop :=
  forall w, f (m w).2 = f w.

(** The rest of the block, from line 331 on. *)
Definition after_default_variant `{Collaborators} (new_variant : bool)
    (cleaned_input : CleanedInput (Attribute * AttrValuesInput))
    (instance : ProductVariant) : M ProductVariant :=
  delay (product_pk (product instance));;
  (if list_truthy (stocks cleaned_input)
   then create_variant_stocks instance (default [] (stocks cleaned_input))
   else mret tt);;
  (if list_truthy (attributes cleaned_input)
   then query (AttributeAssignmentMixin_save instance
                 (default [] (attributes cleaned_input)))
   else mret tt);;
  instance ←
    (if negb (str_truthy (name instance))
     then
       name' ← query (generate_and_set_variant_name instance
                        (default None (sku cleaned_input)));
       mret {| pk := pk instance; name := name';
               product := product instance |}
     else mret instance);
  query (update_product_search_vector (product instance));;
  let event_to_call :=
    if new_variant then product_variant_created
    else product_variant_updated in
  call_event event_to_call instance;;
  mret instance.

(** ** A small implementation of the collaborators, for the examples *)

Module Reference.

Definition lower (c : ascii) : ascii :=
  let n := N_of_ascii c in
  if ((65 <=? n) && (n <=? 90))%N then ascii_of_N (n + 32) else c.

Definition is_word (c : ascii) : bool :=
  let n := N_of_ascii c in
  (((97 <=? n) && (n <=? 122)) || ((48 <=? n) && (n <=? 57))
   || (n =? 95))%N.

Definition is_space (c : ascii) : bool :=
  let n := N_of_ascii c in
  (((9 <=? n) && (n <=? 13)) || ((28 <=? n) && (n <=? 32)))%N.

Definition is_dash (c : ascii) : bool := (N_of_ascii c =? 45)%N.

(** [re.sub(r"[-\s]+", "-", value)] *)
Fixpoint collapse (in_run : bool) (value : list ascii) : list ascii :=
  match value with
  | [] => []
  | c :: rest =>
      if is_dash c || is_space c then
        if in_run then collapse true rest
        else "-"%char :: collapse true rest
      else c :: collapse false rest
  end.

Fixpoint lstrip (value : list ascii) : list ascii :=
  match value with
  | c :: rest =>
      if is_dash c || (N_of_ascii c =? 95)%N then lstrip rest else value
  | [] => []
  end.

(** [django.utils.text.slugify] on ASCII text. *)
Definition slugify (value : string) : string :=
  let lowered := map lower (list_ascii_of_string value) in
  let kept :=
    List.filter (fun c => is_word c || is_space c || is_dash c) lowered in
  let collapsed := collapse false kept in
  string_of_list_ascii (rev (lstrip (rev (lstrip collapsed)))).

(** The text that [graphene] encodes in base 64 to make a global id;
    the encoding is left out here. *)
Definition to_global_id (type : string) (key : Z) : string :=
  (type ++ ":" ++ NilZero.string_of_int (Z.to_int key))%string.

Definition set_order (X : gset string) : list string := elements X.

(** The attribute of a queryset that has the global id [key]. *)
Definition find_attribute (attributes_qs : list Attribute) (key : string)
  : option Attribute :=
  head (filter (fun a => to_global_id "Attribute" (attribute_pk a) = key)
               attributes_qs).

(** A cleaner that pairs each input with its attribute and fails on an
    input whose attribute it cannot find. *)
Fixpoint clean_attribute_inputs (raw_input : list AttributeValueInput)
    (attributes_qs : list Attribute) : Result T_INPUT_MAP :=
  match raw_input with
  | [] => ok []
  | input :: rest =>
      match find_attribute attributes_qs (attribute_id input) with
      | Some attr =>
          cleaned ← clean_attribute_inputs rest attributes_qs;
          ok ((attr, {| global_id := attribute_id input;
                        values := input_values input;
                        file_url := input_file input |}) :: cleaned)
      | None =>
          raise (VError "Could not resolve to a node."
                        (OTHER_CODE "NOT_FOUND") None)
      end
  end.

Definition clean_variant_sku (sku : option string)
  : Result (option string) :=
  ok (if str_truthy sku then sku else None).

(** The save-time collaborators over the store. *)

Definition with_variants (f : gmap Z VariantRow -> gmap Z VariantRow)
    (s : Store) : Store :=
  {| products := products s; variants := f (variants s);
     warehouses := warehouses s; stock_rows := stock_rows s;
     attribute_rows := attribute_rows s |}.

Definition add_stock_rows (rows : list (Z * string * Z)) (s : Store)
  : Store :=
  {| products := products s; variants := variants s;
     warehouses := warehouses s; stock_rows := stock_rows s ++ rows;
     attribute_rows := attribute_rows s |}.

Definition add_attribute_row (row : Z * string * list string) (s : Store)
  : Store :=
  {| products := products s; variants := variants s;
     warehouses := warehouses s; stock_rows := stock_rows s;
     attribute_rows := attribute_rows s ++ [row] |}.

(** A variant without a key gets the next key. *)
Definition model_save (instance : ProductVariant) : Db Z :=
  fun s =>
    let key := default (1 + Z.of_nat (size (variants s))) (pk instance) in
    (inr key,
     with_variants
       (insert key {| row_product := product_pk (product instance);
                      row_name := name instance |}) s).

Definition get_nodes_or_error (warehouse_ids : list string)
  : Db (list string) :=
  fun s =>
    if decide (Forall (fun w => w ∈ warehouses s) warehouse_ids)
    then (inr warehouse_ids, s)
    else (inl (Invalid
                 (VErrorDict
                    [("warehouse",
                      VError "Could not resolve to a node."
                             (OTHER_CODE "NOT_FOUND") None)])), s).

Definition create_stocks (variant : ProductVariant)
    (stocks : list StockInput) (found : list string) : Db unit :=
  fun s =>
    (inr tt,
     add_stock_rows
       (map (fun stock =>
               (default 0 (pk variant), warehouse stock, quantity stock))
            stocks) s).

(** Writes one attribute row per pair, in order, and raises at the first
    pair that has no value. *)
Fixpoint assign (key : Z) (attributes : T_INPUT_MAP) : Db unit :=
  fun s =>
    match attributes with
    | [] => (inr tt, s)
    | (attr, attr_data) :: rest =>
        match attr_values slugify attr attr_data with
        | [] =>
            (inl (Invalid
                    (VError "Attribute expects a value but none were given."
                            REQUIRED None)), s)
        | vs =>
            assign key rest
              (add_attribute_row (key, global_id attr_data, vs) s)
        end
    end.

Definition generate_and_set_variant_name (instance : ProductVariant)
    (sku : option string) : Db (option string) :=
  fun s =>
    let name' := Some (default "variant" sku) in
    (inr name',
     with_variants
       (alter (fun row => {| row_product := row_product row;
                             row_name := name' |})
              (default 0 (pk instance))) s).

Definition update_product_search_vector (time : Z) (product : Product)
  : Db unit :=
  fun s =>
    match products s !! product_pk product with
    | Some row =>
        (inr tt,
         {| products :=
              <[product_pk product :=
                  {| row_default_variant := row_default_variant row;
                     row_updated_at := time;
                     row_columns :=
                       <["search_vector" := "indexed"]> (row_columns row) |}]>
                (products s);
            variants := variants s; warehouses := warehouses s;
            stock_rows := stock_rows s;
            attribute_rows := attribute_rows s |})
    | None => (inr tt, s)
    end.

(** The signature of the variant [key], from its attribute rows. *)
Definition variant_signature (s : Store) (key : Z)
  : gmap string (list string) :=
  fold_left
    (fun d '(variant, attribute, vs) =>
       if decide (variant = key) then extend d attribute vs else d)
    (attribute_rows s) ∅.

(** The signatures of the variants of [product] in the store. *)
Definition get_used_variants_attribute_values (s : Store) (product : Product)
  : list (gmap string (list string)) :=
  map (variant_signature s)
      (filter (fun key =>
                 row_product <$> variants s !! key = Some (product_pk product))
              (elements (dom (variants s)))).

Definition collaborators (time : Z) : Collaborators :=
  Build_Collaborators model_save time get_nodes_or_error create_stocks
    (fun instance => assign (default 0 (pk instance)))
    generate_and_set_variant_name (update_product_search_vector time).

End Reference.

(** ** Data of the examples *)

Module Example.

Definition image : Attribute :=
  {| attribute_pk := 1; input_type := FILE; value_required := false |}.

Definition size : Attribute :=
  {| attribute_pk := 2; input_type := DROPDOWN; value_required := true |}.

Definition image_id : string := Reference.to_global_id "Attribute" 1.
Definition size_id : string := Reference.to_global_id "Attribute" 2.

(** A cleaned assignment: a file and a choice with a repeated value. *)
Definition assignment : T_INPUT_MAP :=
  [(image, {| global_id := image_id; values := [];
              file_url := Some "https://cdn.example.com/media/Front View.PNG" |});
   (size, {| global_id := size_id; values := ["xl"; "l"; "xl"];
             file_url := None |})].

(** The same choice with its values in another order. *)
Definition reordered : T_INPUT_MAP :=
  [(image, {| global_id := image_id; values := [];
              file_url := Some "https://cdn.example.com/media/Front View.PNG" |});
   (size, {| global_id := size_id; values := ["l"; "xl"; "xl"];
             file_url := None |})].

(** The signature of [assignment], written out. *)
Definition signature : gmap string (list string) :=
  {[ image_id := ["front-viewpng"]; size_id := ["xl"; "l"; "xl"] ]}.

Definition small : T_INPUT_MAP :=
  [(size, {| global_id := size_id; values := ["s"]; file_url := None |})].

(** A type with variants and two attributes, one of them required; a type
    without variants and without attributes; a type without variants that
    still has an attribute. *)
Definition configurable : ProductType :=
  {| has_variants := true; variant_attributes := [image; size] |}.

Definition plain : ProductType :=
  {| has_variants := false; variant_attributes := [] |}.

Definition plain_with_size : ProductType :=
  {| has_variants := false; variant_attributes := [size] |}.

Definition shirt : Product :=
  {| product_pk := 10; default_variant := None;
     product_type := configurable |}.

Definition voucher : Product :=
  {| product_pk := 11; default_variant := None; product_type := plain |}.

Definition card : Product :=
  {| product_pk := 12; default_variant := None;
     product_type := plain_with_size |}.

(** An instance that has not been saved. *)
Definition fresh (parent : Product) : ProductVariant :=
  {| pk := None; name := None; product := parent |}.

(** The input of a creation, after the base class has cleaned it. *)
Definition input (parent : Product) (limit : option Z)
    (stock : option (list StockInput))
    (raw : option (list AttributeValueInput))
  : CleanedInput AttributeValueInput :=
  {| weight := None; quantity_limit_per_customer := limit; stocks := stock;
     input_product := parent; attributes := raw; sku := Some (Some "SKU-1");
     preorder := None; is_preorder := None;
     preorder_global_threshold := None; preorder_end_date := None |}.

Definition size_input : AttributeValueInput :=
  {| attribute_id := size_id; input_values := ["xl"]; input_file := None |}.

(** An attribute that no product type of the example has. *)
Definition colour_input : AttributeValueInput :=
  {| attribute_id := Reference.to_global_id "Attribute" 99;
     input_values := ["red"]; input_file := None |}.

Definition twice : list StockInput :=
  [ {| warehouse := "W1"; quantity := 5 |};
    {| warehouse := "W2"; quantity := 1 |};
    {| warehouse := "W1"; quantity := 3 |} ].

(** An empty database with two warehouses. *)
Definition empty_store : Store :=
  {| products := ∅; variants := ∅; warehouses := {["W1"; "W2"]};
     stock_rows := []; attribute_rows := [] |}.

(** A database with the shirt, which has no variant yet. *)
Definition shop : Store :=
  {| products :=
       {[ 10 := {| row_default_variant := None; row_updated_at := 0;
                   row_columns := {[ "name" := "Shirt" ]} |} ]};
     variants := ∅; warehouses := {["W1"; "W2"]};
     stock_rows := []; attribute_rows := [] |}.

Definition world (s : Store) : World :=
  {| store := s; price_tasks := []; events := [] |}.

(** A cleaned input with one stock and the given attributes. *)
Definition cleaned (pairs : T_INPUT_MAP)
  : CleanedInput (Attribute * AttrValuesInput) :=
  {| weight := None; quantity_limit_per_customer := None;
     stocks := Some [ {| warehouse := "W1"; quantity := 5 |} ];
     input_product := shirt; attributes := Some pairs;
     sku := Some (Some "SKU-1"); preorder := None; is_preorder := None;
     preorder_global_threshold := None; preorder_end_date := None |}.

(** A pair without a value, which the attribute rows refuse. *)
Definition valueless : T_INPUT_MAP :=
  [(size, {| global_id := size_id; values := []; file_url := None |})].

(** The shirt as it is read once its first variant is there. *)
Definition shirt_with_default : Product :=
  {| product_pk := 10; default_variant := Some 1;
     product_type := configurable |}.

(** [clean_input] with the collaborators of the example. *)
Definition clean (s : Store) :=
  clean_input Reference.slugify Reference.set_order Reference.to_global_id
    Reference.clean_attribute_inputs
    (Reference.get_used_variants_attribute_values s)
    Reference.clean_variant_sku.

End Example.

(** ** Finding the instance *)

(** What a queryset of variants answers: [get_node_or_error] with an id,
    and [filter(sku=...).first()]. *)
Record QuerySet : Type := {
  node_or_error : string -> Result ProductVariant;
  first_with_sku : string -> option ProductVariant
}.

(** What [get_instance] returns: a variant of the queryset, or the blank
    instance [cls._meta.model()]. *)
Inductive Resolved : Type :=
  | Existing (variant : ProductVariant)
  | Blank.

Section GetInstance.

(** The name of the class the method is called on: [cls.__name__]. *)
Variable cls_name : string.

(** [cls.Meta.model.objects.prefetch_related(...)]: [None] when the class
    has no attribute [Meta], as for a mutation class, from which graphene
    removes it. *)
Variable prefetched : option QuerySet.

(** [models.ProductVariant.objects.all()] *)
Variable unfetched : QuerySet.

(** What reading [cls.Meta] raises when the class has no such attribute. *)
Definition no_meta_error : Exception :=
  AttributeError
    ("type object '" ++ cls_name ++ "' has no attribute 'Meta'").

Definition not_found_error (object_sku : string) : ValidationError :=
  VErrorDict
    [("sku",
      VError ("Couldn't resolve to a node: " ++ object_sku)
             (OTHER_CODE "not_found") None)].

(** Lines 292-301: the queryset. *)
Definition queryset (attributes : option (list AttributeValueInput))
  : Result QuerySet :=
  if list_truthy attributes then
    match prefetched with
    | Some qs => ok qs
    | None => inl no_meta_error
    end
  else ok unfetched.

(** Lines 280-320; [data] holds ["id"], ["sku"] and ["attributes"]. *)
Definition get_instance (object_id object_sku : option string)
    (attributes : option (list AttributeValueInput)) : Result Resolved :=
  qs ← queryset attributes;
  if str_truthy object_id then
    instance ← node_or_error qs (default "" object_id);
    ok (Existing instance)
  else if str_truthy object_sku then
    match first_with_sku qs (default "" object_sku) with
    | Some instance => ok (Existing instance)
    | None => raise (not_found_error (default "" object_sku))
    end
  else ok Blank.

End GetInstance.

(** ** More notions and data *)

(** [cleaned_input] with another product under ["product"]. *)
Definition with_input_product {A} (parent : Product)
    (cleaned_input : CleanedInput A) : CleanedInput A :=
  {| weight := weight cleaned_input;
     quantity_limit_per_customer := quantity_limit_per_customer cleaned_input;
     stocks := stocks cleaned_input;
     input_product := parent;
     attributes := attributes cleaned_input;
     sku := sku cleaned_input;
     preorder := preorder cleaned_input;
     is_preorder := is_preorder cleaned_input;
     preorder_global_threshold := preorder_global_threshold cleaned_input;
     preorder_end_date := preorder_end_date cleaned_input |}.

(** [instance] with another product object. *)
Definition with_product (parent : Product) (instance : ProductVariant)
  : ProductVariant :=
  {| pk := pk instance; name := name instance; product := parent |}.

Module More.

(** An input with everything wrong at once: a negative weight, a quantity
    limit of 0, a warehouse named twice and an attribute that the type does
    not have. *)
Definition all_wrong (w : option Weight) (limit : option Z)
  : CleanedInput AttributeValueInput :=
  {| weight := w; quantity_limit_per_customer := limit;
     stocks := Some Example.twice;
     input_product := Example.voucher;
     attributes := Some [Example.colour_input];
     sku := Some (Some "SKU-1"); preorder := None; is_preorder := None;
     preorder_global_threshold := None; preorder_end_date := None |}.

(** A creation for the shirt with a preorder block. *)
Definition preordered : CleanedInput AttributeValueInput :=
  {| weight := Some {| value := 5 |}; quantity_limit_per_customer := Some 2;
     stocks := Some [ {| warehouse := "W1"; quantity := 5 |} ];
     input_product := Example.shirt;
     attributes := Some [Example.size_input];
     sku := Some (Some "SKU-2");
     preorder := Some {| global_threshold := Some (Some 10);
                         end_date := None |};
     is_preorder := None;
     preorder_global_threshold := None; preorder_end_date := None |}.

(** A variant of the shirt that has been saved. *)
Definition saved : ProductVariant :=
  {| pk := Some 1; name := Some "SKU-1";
     product := Example.shirt_with_default |}.

(** A database in which the shirt has that variant, of size "xl". *)
Definition stocked : Store :=
  {| products :=
       {[ 10 := {| row_default_variant := Some 1; row_updated_at := 7;
                   row_columns := {[ "name" := "Shirt" ]} |} ]};
     variants := {[ 1 := {| row_product := 10; row_name := Some "SKU-1" |} ]};
     warehouses := {["W1"; "W2"]};
     stock_rows := [(1, "W1", 5)];
     attribute_rows := [(1, Example.size_id, ["xl"])] |}.

(** A cleaned input without stocks and without attributes. *)
Definition bare : CleanedInput (Attribute * AttrValuesInput) :=
  {| weight := None; quantity_limit_per_customer := None; stocks := None;
     input_product := Example.shirt_with_default; attributes := None;
     sku := None; preorder := None; is_preorder := None;
     preorder_global_threshold := None; preorder_end_date := None |}.

(** A database operation that is out of order. *)
Definition broken {A} : Db A :=
  fun s => (inl (DatabaseError "out of order"), s).

(** A queryset with that one variant, whose SKU is "SKU-1". *)
Definition one_variant : QuerySet :=
  {| node_or_error :=
       fun object_id =>
         if decide (object_id = "UHJvZHVjdFZhcmlhbnQ6MQ==") then ok saved
         else raise (VErrorDict
                       [("id", VError "Couldn't resolve to a node."
                                      (OTHER_CODE "not_found") None)]);
     first_with_sku :=
       fun object_sku =>
         if decide (object_sku = "SKU-1") then Some saved else None |}.

End More.

(** * Properties *)

(** ** Splitting a path *)

Lemma append_cons c s t : (String c s +:+ t) = String c (s +:+ t).
Proof. reflexivity. Qed.

Lemma append_assoc s t u : ((s +:+ t) +:+ u) = (s +:+ (t +:+ u)).
Proof. induction s as [|c s IH]; [done|]. by rewrite !append_cons, IH. Qed.

Lemma join_cons_cons sep x y l :
  join sep (x :: y :: l) = (x +:+ sep +:+ join sep (y :: l)).
Proof. reflexivity. Qed.

Lemma split_cons_inv sep s : exists head tail, split sep s = head :: tail.
Proof.
  destruct s as [|c rest]; simpl; [by eauto|].
  destruct (Ascii.eqb c sep); [by eauto|].
  destruct (split sep rest); eauto.
Qed.

(** Joining the pieces with the separator gives the string back. *)
Lemma join_split sep s : join (String sep "") (split sep s) = s.
Proof.
  induction s as [|c rest IH]; [done|]. simpl.
  destruct (Ascii.eqb_spec c sep) as [->|Hne].
  - destruct (split_cons_inv sep rest) as (head & tail & Heq).
    rewrite Heq in *. by rewrite join_cons_cons, IH.
  - destruct (split_cons_inv sep rest) as (head & tail & Heq).
    rewrite Heq in *. destruct tail as [|next tail].
    + simpl in *. by rewrite IH.
    + rewrite join_cons_cons in *. by rewrite append_cons, IH.
Qed.

(** No piece contains the separator. *)
Lemma split_pieces sep s : Forall (fun p => occurs sep p = false) (split sep s).
Proof.
  induction s as [|c rest IH]; simpl.
  - by repeat constructor.
  - destruct (Ascii.eqb_spec c sep) as [->|Hne].
    + by constructor.
    + destruct (split_cons_inv sep rest) as (head & tail & Heq).
      rewrite Heq in *. inversion IH as [|? ? Hhead Htail]; subst.
      constructor; [|done]. simpl. rewrite Hhead.
      by destruct (Ascii.eqb_spec c sep).
Qed.

Lemma join_snoc sep l x :
  l <> [] -> join sep (l ++ [x]) = (join sep l +:+ sep +:+ x).
Proof.
  induction l as [|y l IH]; [done|]. intros _.
  destruct l as [|z l]; [done|].
  change ((y :: z :: l) ++ [x]) with (y :: z :: (l ++ [x])).
  rewrite !join_cons_cons.
  change (z :: (l ++ [x])) with ((z :: l) ++ [x]).
  rewrite IH by done. by rewrite !append_assoc.
Qed.

(** [url.split("/")[-1]] is the part of [url] after its last separator:
    it has no separator, and what precedes it is empty or ends with one. *)
Lemma trailing_segment sep url :
  let segment := last_item (split sep url) in
  occurs sep segment = false
  /\ exists before,
       url = (before +:+ segment)
       /\ (before = "" \/ exists path, before = (path +:+ String sep "")).
Proof.
  simpl. pose proof (join_split sep url) as Hjoin.
  pose proof (split_pieces sep url) as Hpieces.
  destruct (split_cons_inv sep url) as (head & tail & Heq).
  rewrite Heq in *. clear Heq.
  destruct (decide (tail = [])) as [->|Hne].
  - simpl in *. inversion Hpieces; subst. split; [done|].
    exists "". by split; [|left].
  - destruct (exists_last Hne) as (init & x & ->).
    unfold last_item. rewrite app_comm_cons, last_snoc. simpl.
    rewrite app_comm_cons in Hpieces. apply Forall_app in Hpieces as [_ Hx].
    inversion Hx as [|? ? Hocc _]. split; [done|].
    rewrite app_comm_cons, join_snoc in Hjoin by done.
    exists (join (String sep "") (head :: init) +:+ String sep "").
    split; [by rewrite append_assoc|]. right. eauto.
Qed.

(** ** The duplicate configuration detector *)

Section DetectorFacts.

Variable slugify : string -> string.

Lemma ids_cons attr x rest : ids ((attr, x) :: rest) = global_id x :: ids rest.
Proof. reflexivity. Qed.

Lemma values_under_absent key data :
  key ∉ ids data -> values_under slugify key data = [].
Proof.
  induction data as [|[attr x] rest IH]; [done|].
  rewrite ids_cons. intros [Hne Hrest]%not_elem_of_cons. simpl.
  case_decide; [congruence|]. by rewrite IH.
Qed.

Lemma collect_lookup data d key :
  collect slugify data d !! key =
    if decide (key ∈ ids data)
    then Some (default [] (d !! key) ++ values_under slugify key data)
    else d !! key.
Proof.
  revert d. induction data as [|[attr x] rest IH]; intros d; [done|].
  cbn [collect values_under]. rewrite IH, ids_cons. unfold extend.
  destruct (decide (global_id x = key)) as [Heq|Hne].
  - rewrite Heq, lookup_insert_eq. cbn [default].
    rewrite (decide_True (P := key ∈ key :: ids rest))
      by (apply elem_of_cons; by left).
    case_decide as Hin.
    + by rewrite app_assoc.
    + by rewrite (values_under_absent _ _ Hin), app_nil_r.
  - rewrite lookup_insert_ne by done. cbn [app].
    case_decide as Hin.
    + rewrite decide_True; [done|apply elem_of_cons; by right].
    + rewrite decide_False; [done|].
      intros [?|?]%elem_of_cons; congruence.
Qed.

Lemma attribute_values_lookup data key :
  attribute_values slugify data !! key =
    if decide (key ∈ ids data)
    then Some (values_under slugify key data) else None.
Proof.
  unfold attribute_values. rewrite collect_lookup, lookup_empty.
  by case_decide.
Qed.

Lemma attribute_values_dom data :
  dom (attribute_values slugify data) = list_to_set (ids data).
Proof.
  apply set_eq. intros key.
  rewrite elem_of_dom, attribute_values_lookup, elem_of_list_to_set.
  case_decide; [by split; eauto|]. split; [by intros []|done].
Qed.

(** A pair that is the only one with its global id contributes the whole
    list under that id. *)
Lemma values_under_single data i attr x :
  data !! i = Some (attr, x) ->
  (forall j attr' x',
      data !! j = Some (attr', x') -> global_id x' = global_id x -> j = i) ->
  values_under slugify (global_id x) data = attr_values slugify attr x.
Proof.
  revert i. induction data as [|[attr0 x0] rest IH]; intros i Hi Hone.
  - done.
  - destruct i as [|i]; simpl in Hi.
    + injection Hi as -> ->. simpl. rewrite decide_True by done.
      rewrite values_under_absent; [by rewrite app_nil_r|].
      intros Hin. unfold ids in Hin.
      apply list_elem_of_fmap in Hin as ([attr' x'] & Hid & Hin).
      apply list_elem_of_lookup in Hin as [j Hj].
      by specialize (Hone (S j) attr' x' Hj (eq_sym Hid)).
    + simpl. rewrite decide_False.
      * apply (IH i Hi). intros j attr' x' Hj Hid.
        specialize (Hone (S j) attr' x' Hj Hid). lia.
      * intros Hid. by specialize (Hone 0%nat attr0 x0 eq_refl Hid).
Qed.

Lemma attr_values_file attr x url :
  input_type attr = FILE -> file_url x = Some url -> url <> "" ->
  attr_values slugify attr x = [slugify (last_item (split "/" url))].
Proof.
  intros Hkind Hurl Hne. unfold attr_values.
  rewrite decide_True, Hurl by done. by destruct url.
Qed.

Lemma attr_values_no_file attr x :
  input_type attr = FILE -> file_url x = None \/ file_url x = Some "" ->
  attr_values slugify attr x = [].
Proof.
  intros Hkind Hurl. unfold attr_values. rewrite decide_True by done.
  by destruct Hurl as [-> | ->].
Qed.

Lemma attr_values_other attr x :
  input_type attr <> FILE -> attr_values slugify attr x = values x.
Proof. intros Hkind. unfold attr_values. by rewrite decide_False. Qed.

Lemma validate_raises data used :
  attribute_values slugify data ∈ used ->
  validate_duplicated_attribute_values slugify data used =
    (raise (duplicated_error (attribute_values slugify data)), used).
Proof.
  intros Hin. unfold validate_duplicated_attribute_values.
  by rewrite decide_True.
Qed.

(** The error of lines 149-153, with the keys of the dictionary spelt
    out. *)
Lemma duplicated_error_eq data :
  duplicated_error (attribute_values slugify data)
  = VError "Duplicated attribute values for product variant."
      DUPLICATED_INPUT_ITEM (Some (list_to_set (ids data))).
Proof. unfold duplicated_error. by rewrite attribute_values_dom. Qed.

(** Equality of dictionaries, spelt out: the same keys and, under every
    key, the same list. *)
Lemma registered_iff (d : gmap string (list string))
    (used : list (gmap string (list string))) :
  d ∈ used <->
  exists s : gmap string (list string),
    s ∈ used /\ dom s = dom d /\ forall key, s !! key = d !! key.
Proof.
  split.
  - intros Hin. by exists d.
  - intros (s & Hin & _ & Hsame). by rewrite <- (map_eq s d Hsame).
Qed.

End DetectorFacts.

Lemma lookup_cons_S {A} (x : A) (l : list A) (n : nat) :
  (x :: l) !! S n = l !! n.
Proof. reflexivity. Qed.

Section RegistryFacts.

Variable slugify : string -> string.

Lemma validate_each_cons candidate rest used :
  validate_each slugify (candidate :: rest) used =
    let v := validate_duplicated_attribute_values slugify candidate used in
    let r := validate_each slugify rest v.2 in
    (v.1 :: r.1, r.2).
Proof.
  simpl. destruct (validate_duplicated_attribute_values _ _ _).
  by destruct (validate_each _ _ _).
Qed.

Lemma validate_each_app first second used :
  validate_each slugify (first ++ second) used =
    let a := validate_each slugify first used in
    let b := validate_each slugify second a.2 in
    (a.1 ++ b.1, b.2).
Proof.
  revert used. induction first as [|c first IH]; intros used.
  - simpl. by destruct (validate_each _ _ _).
  - rewrite <- app_comm_cons, !validate_each_cons. simpl. by rewrite IH.
Qed.

Lemma validate_each_length candidates used :
  length (validate_each slugify candidates used).1 = length candidates.
Proof.
  revert used. induction candidates as [|c rest IH]; intros used; [done|].
  rewrite validate_each_cons. simpl. by rewrite IH.
Qed.

(** A call never removes a signature from the registry. *)
Lemma validate_keeps data used (s : gmap string (list string)) :
  s ∈ used ->
  s ∈ (validate_duplicated_attribute_values slugify data used).2.
Proof.
  intros Hin. unfold validate_duplicated_attribute_values.
  case_decide; simpl; [done|]. apply elem_of_app. by left.
Qed.

Lemma validate_each_keeps candidates used (s : gmap string (list string)) :
  s ∈ used -> s ∈ (validate_each slugify candidates used).2.
Proof.
  revert used. induction candidates as [|c rest IH]; intros used Hin.
  - done.
  - rewrite validate_each_cons. simpl. by apply IH, validate_keeps.
Qed.

(** After a call the signature of its candidate is in the registry,
    whatever the outcome. *)
Lemma validate_registers data used :
  attribute_values slugify data
    ∈ (validate_duplicated_attribute_values slugify data used).2.
Proof.
  unfold validate_duplicated_attribute_values.
  case_decide; simpl; [done|]. apply elem_of_app. right.
  apply list_elem_of_singleton. done.
Qed.

Lemma validate_each_grows candidates used :
  let r := validate_each slugify candidates used in
  length r.2 = (length used + length (List.filter accepted r.1))%nat
  /\ used `prefix_of` r.2.
Proof.
  revert used. induction candidates as [|c rest IH]; intros used.
  - simpl. split; [lia|done].
  - rewrite validate_each_cons. cbn zeta. cbn [fst snd].
    destruct (IH (validate_duplicated_attribute_values slugify c used).2)
      as [Hlen Hpre].
    unfold validate_duplicated_attribute_values in *.
    case_decide; cbn [fst snd List.filter accepted raise ok] in *.
    + done.
    + rewrite Hlen, length_app. cbn [length]. split; [lia|].
      etrans; [|exact Hpre]. by apply prefix_app_r.
Qed.

End RegistryFacts.

(** ** Signatures and the registry *)

(** C1.  The dictionary that [validate_duplicated_attribute_values] builds
    maps every global id of the assignment to the value identifiers its
    pairs contribute, in order (for a pair that is the only one with its id:
    exactly what that pair contributes), and no other key.  A pair of a FILE
    attribute contributes the slug of the part of [file_url] after the last
    "/", or nothing without a file; a pair of any other kind its [values] as
    they are.  The call raises the error with code DUPLICATED_INPUT_ITEM,
    with the global ids of the assignment (the keys of the dictionary) as
    [params], exactly when the registry holds a dictionary with the same
    keys and the same list under every key; otherwise it accepts and appends
    the dictionary. *)
Theorem validate_duplicated_attribute_values_signature
    (slugify : string -> string) (attributes_data : T_INPUT_MAP)
    (used : list (gmap string (list string))) :
  let d := attribute_values slugify attributes_data in
  let outcome :=
    validate_duplicated_attribute_values slugify attributes_data used in
  (forall key,
      d !! key = if decide (key ∈ ids attributes_data)
                 then Some (values_under slugify key attributes_data)
                 else None)
  /\ (forall i attr x,
         attributes_data !! i = Some (attr, x) ->
         (forall j attr' x',
             attributes_data !! j = Some (attr', x') ->
             global_id x' = global_id x -> j = i) ->
         d !! global_id x = Some (attr_values slugify attr x))
  /\ (forall attr x,
         (input_type attr = FILE ->
          forall url, file_url x = Some url -> url <> "" ->
            attr_values slugify attr x = [slugify (last_item (split "/" url))]
            /\ occurs "/" (last_item (split "/" url)) = false
            /\ exists before,
                 url = (before +:+ last_item (split "/" url))
                 /\ (before = "" \/ exists path, before = (path +:+ "/")))
         /\ (input_type attr = FILE ->
             file_url x = None \/ file_url x = Some "" ->
             attr_values slugify attr x = [])
         /\ (input_type attr <> FILE ->
             attr_values slugify attr x = values x))
  /\ dom d = list_to_set (ids attributes_data)
  /\ (outcome.1
      = raise (VError "Duplicated attribute values for product variant."
                 DUPLICATED_INPUT_ITEM
                 (Some (list_to_set (ids attributes_data)))) <->
      exists s : gmap string (list string),
        s ∈ used /\ dom s = dom d /\ forall key, s !! key = d !! key)
  /\ (outcome
      = (raise (VError "Duplicated attribute values for product variant."
                  DUPLICATED_INPUT_ITEM
                  (Some (list_to_set (ids attributes_data)))), used)
      \/ outcome = (ok tt, used ++ [d])).
Proof.
  cbn zeta. rewrite <- !(duplicated_error_eq slugify attributes_data).
  split; [|split; [|split; [|split; [|split]]]].
  - apply attribute_values_lookup.
  - intros i attr x Hi Hone.
    rewrite attribute_values_lookup, decide_True.
    + by rewrite (values_under_single slugify _ i attr x).
    + apply (list_elem_of_fmap_2 (fun p => global_id p.2) _ (attr, x)).
      apply list_elem_of_lookup. by exists i.
  - intros attr x. split; [|split].
    + intros Hkind url Hurl Hne. split; [by apply attr_values_file|].
      apply (trailing_segment "/" url).
    + apply attr_values_no_file.
    + apply attr_values_other.
  - apply attribute_values_dom.
  - rewrite <- registered_iff.
    unfold validate_duplicated_attribute_values.
    case_decide; simpl; [done|]. split; [discriminate|done].
  - unfold validate_duplicated_attribute_values. case_decide; auto.
Qed.

(** On the assignment of the example: the file contributes one slug, the
    choice its three values with the repetition, and a registry that holds
    this signature makes the call raise. *)
Lemma validate_duplicated_attribute_values_signature_witness :
  attribute_values Reference.slugify Example.assignment !! Example.image_id
    = Some ["front-viewpng"]
  /\ attribute_values Reference.slugify Example.assignment !! Example.size_id
    = Some ["xl"; "l"; "xl"]
  /\ (validate_duplicated_attribute_values Reference.slugify
        Example.assignment [Example.signature]).1
     = raise (VError "Duplicated attribute values for product variant."
                DUPLICATED_INPUT_ITEM
                (Some {[ "Attribute:1"; "Attribute:2" ]})).
Proof.
  pose proof (validate_duplicated_attribute_values_signature
                Reference.slugify Example.assignment [Example.signature])
    as (_ & Hpair & _ & _ & Hraise & _).
  assert (forall (i j : nat) attr x attr' x',
             Example.assignment !! i = Some (attr, x) ->
             Example.assignment !! j = Some (attr', x') ->
             global_id x' = global_id x -> j = i) as Hone.
  { intros [|[|i]] [|[|j]] attr x attr' x' Hi Hj Hid;
      vm_compute in Hi, Hj; simplify_eq; try done;
      vm_compute in Hid; discriminate. }
  split; [|split].
  - apply (Hpair 0%nat Example.image _ eq_refl). intros j attr' x'.
    apply (Hone 0%nat j _ _ attr' x' eq_refl).
  - apply (Hpair 1%nat Example.size _ eq_refl). intros j attr' x'.
    apply (Hone 1%nat j _ _ attr' x' eq_refl).
  - apply Hraise. exists Example.signature.
    split; [apply list_elem_of_singleton; done|].
    split; [by vm_compute|]. intros key. by vm_compute.
Defined.

(** The comparison is sensitive to the order of the values: the same values
    in another order are not a duplicate. *)
Example reordered_values_accepted :
  validate_duplicated_attribute_values Reference.slugify Example.reordered
    [Example.signature]
  = (ok tt,
     [Example.signature;
      attribute_values Reference.slugify Example.reordered]).
Proof. by vm_compute. Qed.

(** C2.  A call that accepts its candidate appends exactly one signature,
    the candidate's, to the registry.  Over any sequence of calls on one
    registry the registry only grows, by one entry per accepted candidate.
    So of two candidates with the same signature, with any calls between
    them: when the first is accepted the second is rejected with the error
    of code DUPLICATED_INPUT_ITEM that names its global ids; the second is
    rejected in any case, and the first is accepted exactly when the
    registry did not hold its signature yet. *)
Theorem validate_each_duplicate_aware (slugify : string -> string) :
  (forall candidate used,
      (validate_duplicated_attribute_values slugify candidate used).1 = ok tt ->
      (validate_duplicated_attribute_values slugify candidate used).2
        = used ++ [attribute_values slugify candidate])
  /\ (forall candidates used,
         let r := validate_each slugify candidates used in
         length r.1 = length candidates
         /\ length r.2 = (length used + length (List.filter accepted r.1))%nat
         /\ used `prefix_of` r.2)
  /\ (forall first between second rest used,
         attribute_values slugify first = attribute_values slugify second ->
         let outcomes :=
           (validate_each slugify (first :: between ++ second :: rest) used).1 in
         (outcomes !! 0%nat = Some (ok tt) ->
          outcomes !! S (length between)
            = Some (raise (VError
                             "Duplicated attribute values for product variant."
                             DUPLICATED_INPUT_ITEM
                             (Some (list_to_set (ids second))))))
         /\ outcomes !! S (length between)
            = Some (raise (VError
                             "Duplicated attribute values for product variant."
                             DUPLICATED_INPUT_ITEM
                             (Some (list_to_set (ids second)))))
         /\ (outcomes !! 0%nat = Some (ok tt) <->
             attribute_values slugify first ∉ used)).
Proof.
  split; [|split].
  - intros candidate used. unfold validate_duplicated_attribute_values.
    by case_decide.
  - intros candidates used. cbn zeta.
    split; [apply validate_each_length|apply validate_each_grows].
  - intros first between second rest used Hsame. cbn zeta.
    rewrite <- !(duplicated_error_eq slugify second).
    assert ((validate_each slugify (first :: between ++ second :: rest) used).1
              !! S (length between)
            = Some (raise (duplicated_error (attribute_values slugify second))))
      as Hsecond.
    { rewrite validate_each_cons. cbn zeta. cbn [fst].
      rewrite lookup_cons_S, validate_each_app. cbn zeta. cbn [fst].
      rewrite lookup_app_r by (rewrite validate_each_length; lia).
      rewrite validate_each_length, Nat.sub_diag, validate_each_cons.
      cbn zeta. cbn [fst].
      rewrite validate_raises; [done|].
      rewrite <- Hsame. apply validate_each_keeps, validate_registers. }
    split; [done|]. split; [done|].
    rewrite validate_each_cons. cbn zeta. cbn [fst].
    unfold validate_duplicated_attribute_values.
    case_decide; simpl; split; done.
Qed.

(** Two candidates with the signature of the example, with another
    candidate between them, against an empty registry. *)
Lemma validate_each_duplicate_aware_witness :
  (validate_each Reference.slugify
     [Example.assignment; Example.small; Example.assignment] []).1
    !! 2%nat
  = Some (raise (VError "Duplicated attribute values for product variant."
                   DUPLICATED_INPUT_ITEM
                   (Some {[ "Attribute:1"; "Attribute:2" ]}))).
Proof.
  pose proof (validate_each_duplicate_aware Reference.slugify)
    as (_ & _ & Hpair).
  destruct (Hpair Example.assignment [Example.small] Example.assignment [] []
              eq_refl) as (Haccepted & _ & _).
  apply Haccepted. by vm_compute.
Defined.

(** C9.  When the call raises, the registry is the one it was given: the
    signature is appended on acceptance only, so the calls that follow go as
    if the rejected candidate had not been there. *)
Theorem validate_rejected_keeps_registry (slugify : string -> string)
    (attributes_data : T_INPUT_MAP)
    (used : list (gmap string (list string))) (exc : ValidationError) :
  (validate_duplicated_attribute_values slugify attributes_data used).1
    = raise exc ->
  (validate_duplicated_attribute_values slugify attributes_data used).2 = used
  /\ exc = duplicated_error (attribute_values slugify attributes_data)
  /\ forall later,
       validate_each slugify (attributes_data :: later) used
       = (raise exc :: (validate_each slugify later used).1,
          (validate_each slugify later used).2).
Proof.
  intros Hraise.
  assert ((validate_duplicated_attribute_values slugify attributes_data used).2
          = used) as Hkeep.
  { revert Hraise. unfold validate_duplicated_attribute_values.
    by case_decide. }
  split; [done|]. split.
  - revert Hraise. unfold validate_duplicated_attribute_values, raise.
    case_decide; simpl; [|done]. by intros [= <-].
  - intros later. rewrite validate_each_cons. cbn zeta.
    by rewrite Hraise, Hkeep.
Qed.

(** The assignment of the example against a registry that holds its
    signature. *)
Lemma validate_rejected_keeps_registry_witness :
  (validate_duplicated_attribute_values Reference.slugify Example.assignment
     [Example.signature]).2 = [Example.signature].
Proof.
  refine (proj1 (validate_rejected_keeps_registry Reference.slugify
                   Example.assignment [Example.signature]
                   (duplicated_error
                      (attribute_values Reference.slugify Example.assignment))
                   _)).
  by vm_compute.
Defined.

(** ** Stock input *)

Lemma count_cons v x l :
  count v (x :: l) = ((if decide (x = v) then 1 else 0) + count v l)%nat.
Proof. unfold count. rewrite filter_cons. by case_decide. Qed.

Lemma count_zero v l : count v l = 0%nat <-> v ∉ l.
Proof.
  induction l as [|x l IH].
  - split; [|done]. intros _. apply not_elem_of_nil.
  - rewrite count_cons, not_elem_of_cons. case_decide; subst.
    + split; [lia|]. by intros [? _].
    + rewrite <- IH. split; [by intros ?; split; [|lia]|]. intros [_ ?]. lia.
Qed.

Lemma NoDup_count l : NoDup l <-> forall v, (count v l <= 1)%nat.
Proof.
  induction l as [|x l IH].
  - split; [intros _ v; unfold count; simpl; lia|]. intros _. constructor.
  - rewrite NoDup_cons, IH. split.
    + intros [Hx Hl] v. rewrite count_cons. case_decide; subst.
      * apply count_zero in Hx. lia.
      * specialize (Hl v). lia.
    + intros Hall. split.
      * apply count_zero. specialize (Hall x). rewrite count_cons in Hall.
        rewrite decide_True in Hall by done. lia.
      * intros v. specialize (Hall v). rewrite count_cons in Hall. lia.
Qed.

Lemma elem_of_get_duplicated_values v l :
  v ∈ get_duplicated_values l <-> (1 < count v l)%nat.
Proof.
  unfold get_duplicated_values.
  rewrite elem_of_list_to_set, list_elem_of_filter. split; [by intros []|].
  intros Hmany. split; [done|].
  destruct (decide (v ∈ l)) as [|Hnot]; [done|].
  apply count_zero in Hnot. lia.
Qed.

Lemma get_duplicated_values_empty l :
  get_duplicated_values l = ∅ <-> NoDup l.
Proof.
  rewrite NoDup_count. split.
  - intros Hempty v. destruct (decide (1 < count v l)%nat) as [Hmany|]; [|lia].
    apply elem_of_get_duplicated_values in Hmany.
    rewrite Hempty in Hmany. by apply not_elem_of_empty in Hmany.
  - intros Hall. apply set_eq. intros v.
    rewrite elem_of_get_duplicated_values. specialize (Hall v).
    split; [lia|]. by intros ?%not_elem_of_empty.
Qed.

(** C8.  The stock check takes the warehouse ids of the list and raises
    UNIQUE under "stocks" exactly when some id occurs more than once; the
    message then lists every id that occurs more than once, each once,
    joined by ", ".  A list of pairwise distinct ids passes.  In
    [clean_input] the check is run on every non-empty stocks list. *)
Theorem check_for_duplicates_in_stocks_unique
    (set_order : gset string -> list string)
    (Horder : forall X, set_order X ≡ₚ elements X)
    (stocks_data : list StockInput) :
  let warehouse_ids := map warehouse stocks_data in
  let duplicates := get_duplicated_values warehouse_ids in
  (~ NoDup warehouse_ids <->
   check_for_duplicates_in_stocks set_order stocks_data
   = raise (VErrorDict
              [("stocks",
                VError ("Duplicated warehouse ID: "
                        +:+ join ", " (set_order duplicates))
                       UNIQUE None)]))
  /\ NoDup (set_order duplicates)
  /\ (forall v, v ∈ set_order duplicates <-> (1 < count v warehouse_ids)%nat)
  /\ (NoDup warehouse_ids <->
      check_for_duplicates_in_stocks set_order stocks_data = ok tt)
  /\ (stocks_data <> [] ->
      check_stocks set_order (Some stocks_data)
      = check_for_duplicates_in_stocks set_order stocks_data).
Proof.
  cbn zeta. split; [|split; [|split; [|split]]].
  - unfold check_for_duplicates_in_stocks, duplicated_warehouse_error.
    rewrite <- get_duplicated_values_empty. case_decide; split; done.
  - rewrite Horder. apply NoDup_elements.
  - intros v. rewrite Horder, elem_of_elements.
    apply elem_of_get_duplicated_values.
  - unfold check_for_duplicates_in_stocks.
    rewrite <- get_duplicated_values_empty. case_decide as Hdup; split; done.
  - intros Hne. unfold check_stocks. by destruct stocks_data.
Qed.

(** [W1, W2, W1] is refused and the message lists W1; [W1, W2] passes. *)
Lemma check_for_duplicates_in_stocks_unique_witness :
  check_for_duplicates_in_stocks Reference.set_order
    [ {| warehouse := "W1"; quantity := 5 |};
      {| warehouse := "W2"; quantity := 1 |};
      {| warehouse := "W1"; quantity := 3 |} ]
  = raise (VErrorDict
             [("stocks", VError "Duplicated warehouse ID: W1" UNIQUE None)])
  /\ check_for_duplicates_in_stocks Reference.set_order
       [ {| warehouse := "W1"; quantity := 5 |};
         {| warehouse := "W2"; quantity := 1 |} ]
     = ok tt.
Proof.
  split.
  - refine (proj1 (proj1 (check_for_duplicates_in_stocks_unique
                            Reference.set_order (fun X => reflexivity _)
                            [ {| warehouse := "W1"; quantity := 5 |};
                              {| warehouse := "W2"; quantity := 1 |};
                              {| warehouse := "W1"; quantity := 3 |} ])) _).
    apply (bool_decide_unpack _). by vm_compute.
  - refine (proj1 (proj1 (proj2 (proj2 (proj2
             (check_for_duplicates_in_stocks_unique
                Reference.set_order (fun X => reflexivity _)
                [ {| warehouse := "W1"; quantity := 5 |};
                  {| warehouse := "W2"; quantity := 1 |} ]))))) _).
    apply (bool_decide_unpack _). by vm_compute.
Defined.

(** A weight of -1 is refused, weights of 0 and 5 pass; a quantity limit of
    0 is refused, a limit of 1 passes. *)
Example field_checks_examples :
  check_weight (Some {| value := -1 |}) = raise negative_weight_error
  /\ check_weight (Some {| value := 0 |}) = ok tt
  /\ check_weight (Some {| value := 5 |}) = ok tt
  /\ check_quantity_limit_per_customer (Some 0) = raise quantity_limit_error
  /\ check_quantity_limit_per_customer (Some 1) = ok tt.
Proof. by vm_compute. Qed.

(** ** Cleaning the input *)

Section CleanInputFacts.

Variable slugify : string -> string.
Variable set_order : gset string -> list string.
Variable to_global_id : string -> Z -> string.
Variable cleaner : list AttributeValueInput -> list Attribute -> Result T_INPUT_MAP.
Variable used_of : Product -> list (gmap string (list string)).
Variable clean_variant_sku : option string -> Result (option string).

Local Abbreviation clean_input' :=
  (clean_input slugify set_order to_global_id cleaner used_of clean_variant_sku).

Lemma elem_of_invalid_attributes product_type attributes x :
  x ∈ invalid_attributes to_global_id product_type attributes <->
  x ∈ map attribute_id (default [] attributes)
  /\ x ∉ map (to_global_id "Attribute")
           (map attribute_pk (variant_attributes product_type)).
Proof.
  unfold invalid_attributes, attributes_ids, variant_attributes_ids.
  by rewrite elem_of_difference, !elem_of_list_to_set.
Qed.

Lemma check_attributes_ids_eq product_type attributes :
  check_attributes_ids to_global_id product_type attributes =
    if decide (invalid_attributes to_global_id product_type attributes = ∅)
    then ok tt
    else raise (cannot_be_assigned_error
                  (invalid_attributes to_global_id product_type attributes)).
Proof.
  unfold check_attributes_ids. cbn zeta.
  destruct (decide (invalid_attributes _ _ _ = ∅)) as [Hempty|Hne].
  - rewrite Hempty, size_empty. by rewrite decide_False by lia.
  - rewrite decide_True; [done|].
    assert (size (invalid_attributes to_global_id product_type attributes)
            <> 0%nat); [|lia].
    rewrite size_non_empty_iff. by intros ?%leibniz_equiv.
Qed.

(** With an attribute id that the product type does not have, the outcome
    is that of the three field checks followed by the raise of line 215:
    nothing after line 219 is run. *)
Lemma clean_input_invalid instance cleaned_input :
  let invalid :=
    invalid_attributes to_global_id
      (product_type (parent instance cleaned_input))
      (attributes cleaned_input) in
  invalid <> ∅ ->
  clean_input' instance cleaned_input =
    (check_weight (weight cleaned_input);;
     check_quantity_limit_per_customer
       (quantity_limit_per_customer cleaned_input);;
     check_stocks set_order (stocks cleaned_input);;
     raise (cannot_be_assigned_error invalid)).
Proof.
  cbn zeta. intros Hne. unfold clean_input. fold (parent instance cleaned_input).
  destruct (check_weight _); [done|].
  destruct (check_quantity_limit_per_customer _); [done|].
  destruct (check_stocks _ _); [done|]. simpl.
  rewrite check_attributes_ids_eq. by rewrite decide_False.
Qed.

(** Past the field checks and with attribute ids that are all the product
    type's, [clean_input] goes on with lines 221-264. *)
Lemma clean_input_valid instance cleaned_input :
  field_checks_pass set_order cleaned_input ->
  invalid_attributes to_global_id
    (product_type (parent instance cleaned_input))
    (attributes cleaned_input) = ∅ ->
  exists k,
    clean_input' instance cleaned_input =
      (cleaned ← clean_variant_attributes slugify cleaner instance
                   (product_type (parent instance cleaned_input))
                   (used_of (parent instance cleaned_input))
                   (attributes cleaned_input);
       k cleaned)
    /\ forall cleaned exc, k cleaned = inl exc ->
         clean_variant_sku (default None (sku cleaned_input)) = inl exc.
Proof.
  intros (Hweight & Hlimit & Hstocks) Hempty.
  eexists. split.
  - unfold clean_input. fold (parent instance cleaned_input).
    rewrite Hweight, Hlimit, Hstocks. simpl.
    rewrite check_attributes_ids_eq, decide_True by done. simpl.
    reflexivity.
  - intros cleaned exc. simpl. unfold clean_sku.
    destruct (sku cleaned_input) as [s|]; simpl; [|done].
    destruct (clean_variant_sku s); simpl; [|done]. by intros [= ->].
Qed.

(** The field checks raise dictionaries of errors only. *)
Lemma field_checks_raise {A} (cleaned_input : CleanedInput A) exc :
  (check_weight (weight cleaned_input);;
   check_quantity_limit_per_customer
     (quantity_limit_per_customer cleaned_input);;
   check_stocks set_order (stocks cleaned_input)) = raise exc ->
  exc = negative_weight_error \/ exc = quantity_limit_error
  \/ exc = duplicated_warehouse_error set_order
             (get_duplicated_values
                (map warehouse (default [] (stocks cleaned_input)))).
Proof.
  unfold check_weight, check_quantity_limit_per_customer, check_stocks,
    check_for_duplicates_in_stocks.
  destruct (weight cleaned_input) as [w|]; simpl.
  - destruct (Qlt_le_dec (value w) 0); simpl; [intros [= <-]; by left|].
    destruct (quantity_limit_per_customer cleaned_input) as [n|]; simpl.
    + destruct (n <? 1)%Z; simpl; [intros [= <-]; right; by left|].
      destruct (list_truthy _); [|done]. case_decide; [|done].
      intros [= <-]. by right; right.
    + destruct (list_truthy _); [|done]. case_decide; [|done].
      intros [= <-]. by right; right.
  - destruct (quantity_limit_per_customer cleaned_input) as [n|]; simpl.
    + destruct (n <? 1)%Z; simpl; [intros [= <-]; right; by left|].
      destruct (list_truthy _); [|done]. case_decide; [|done].
      intros [= <-]. by right; right.
    + destruct (list_truthy _); [|done]. case_decide; [|done].
      intros [= <-]. by right; right.
Qed.

(** The three checks raise validation errors only. *)
Lemma field_checks_inl {A} (cleaned_input : CleanedInput A) e :
  (check_weight (weight cleaned_input);;
   check_quantity_limit_per_customer
     (quantity_limit_per_customer cleaned_input);;
   check_stocks set_order (stocks cleaned_input)) = inl e ->
  exists exc, e = Invalid exc.
Proof.
  unfold check_weight, check_quantity_limit_per_customer, check_stocks,
    check_for_duplicates_in_stocks, raise.
  destruct (weight cleaned_input) as [w|]; simpl;
    [destruct (Qlt_le_dec (value w) 0); simpl; [intros [= <-]; eauto|]|];
    (destruct (quantity_limit_per_customer cleaned_input) as [n|]; simpl;
     [destruct (n <? 1)%Z; simpl; [intros [= <-]; eauto|]|];
     (destruct (list_truthy _); [|done]; case_decide; [|done];
      intros [= <-]; eauto)).
Qed.

(** Lines 221-251 raise under "attributes", or the bare INVALID error. *)
Lemma clean_variant_attributes_raise instance product_type used attributes exc :
  clean_variant_attributes slugify cleaner instance product_type used
    attributes = raise exc ->
  (exists inner, exc = VErrorDict [("attributes", inner)])
  \/ exc = cannot_assign_error.
Proof.
  unfold clean_variant_attributes.
  destruct (has_variants product_type).
  - unfold reraise_under, raise.
    destruct (if list_truthy attributes then _ else _) as [[[]| |]|];
      try done; intros [= <-]; left; eauto.
  - destruct (list_truthy attributes); [|done]. intros [= <-]. by right.
Qed.

(** Every error of [clean_input], by where it is raised. *)
Lemma clean_input_raise instance cleaned_input exc :
  let invalid :=
    invalid_attributes to_global_id
      (product_type (parent instance cleaned_input))
      (attributes cleaned_input) in
  clean_input' instance cleaned_input = raise exc ->
  exc = negative_weight_error \/ exc = quantity_limit_error
  \/ (exists duplicates, exc = duplicated_warehouse_error set_order duplicates)
  \/ (invalid <> ∅ /\ exc = cannot_be_assigned_error invalid)
  \/ (invalid = ∅ /\ exists inner, exc = VErrorDict [("attributes", inner)])
  \/ (invalid = ∅ /\ exc = cannot_assign_error)
  \/ (invalid = ∅
      /\ clean_variant_sku (default None (sku cleaned_input)) = raise exc).
Proof.
  cbn zeta. intros Hraise.
  destruct (decide (invalid_attributes to_global_id
                      (product_type (parent instance cleaned_input))
                      (attributes cleaned_input) = ∅)) as [Hempty|Hne].
  - destruct (check_weight (weight cleaned_input);;
              check_quantity_limit_per_customer
                (quantity_limit_per_customer cleaned_input);;
              check_stocks set_order (stocks cleaned_input)) as [e|[]] eqn:Hfield.
    + assert (e = Invalid exc) as ->.
      { revert Hraise Hfield. unfold clean_input, raise.
        destruct (check_weight _); simpl; [congruence|].
        destruct (check_quantity_limit_per_customer _); simpl; [congruence|].
        destruct (check_stocks _ _); simpl; [congruence|done]. }
      apply field_checks_raise in Hfield as [->|[->| ->]]; eauto 10.
    + assert (field_checks_pass set_order cleaned_input) as Hpass.
      { revert Hfield. unfold field_checks_pass.
        destruct (check_weight _) as [|[]]; simpl; [done|].
        destruct (check_quantity_limit_per_customer _) as [|[]]; simpl; [done|].
        by destruct (check_stocks _ _) as [|[]]. }
      destruct (clean_input_valid instance cleaned_input Hpass Hempty)
        as (k & Heq & Hk).
      rewrite Heq in Hraise.
      destruct (clean_variant_attributes _ _ _ _ _ _) as [e|cleaned] eqn:Hattrs.
      * simpl in Hraise. injection Hraise as ->.
        apply clean_variant_attributes_raise in Hattrs as [[? ->]| ->];
          eauto 10.
      * simpl in Hraise. apply Hk in Hraise. eauto 10.
  - rewrite clean_input_invalid in Hraise by done.
    destruct (check_weight (weight cleaned_input);;
              check_quantity_limit_per_customer
                (quantity_limit_per_customer cleaned_input);;
              check_stocks set_order (stocks cleaned_input)) as [e|[]] eqn:Hfield.
    + assert (e = Invalid exc) as ->.
      { revert Hraise Hfield. unfold raise.
        destruct (check_weight _); simpl; [congruence|].
        destruct (check_quantity_limit_per_customer _); simpl; [congruence|].
        destruct (check_stocks _ _); simpl; [congruence|done]. }
      apply field_checks_raise in Hfield as [->|[->| ->]]; eauto 10.
    + assert (exc = cannot_be_assigned_error
                      (invalid_attributes to_global_id
                         (product_type (parent instance cleaned_input))
                         (attributes cleaned_input))) as ->; [|eauto 10].
      revert Hraise Hfield.
      destruct (check_weight _); simpl; [done|].
      destruct (check_quantity_limit_per_customer _); simpl; [done|].
      destruct (check_stocks _ _); simpl; [done|]. by intros [= <-].
Qed.

End CleanInputFacts.

Section CleanInputClaims.

Variable slugify : string -> string.
Variable set_order : gset string -> list string.
Variable to_global_id : string -> Z -> string.
Variable cleaner : list AttributeValueInput -> list Attribute -> Result T_INPUT_MAP.
Variable used_of : Product -> list (gmap string (list string)).
Variable clean_variant_sku : option string -> Result (option string).

Local Abbreviation clean_input' :=
  (clean_input slugify set_order to_global_id cleaner used_of clean_variant_sku).

(** C3, as amended.  [clean_input] takes the supplied attribute ids that are
    not ids of the variant attributes of the product type.  When the weight,
    quantity-limit and stock checks that come first pass and this difference
    is not empty, it raises the error of lines 215-219: code
    ATTRIBUTE_CANNOT_BE_ASSIGNED, with exactly the difference as [params].
    An error with that code that [clean_input] ends with is this one, raised
    with a difference that is not empty, unless the SKU cleaner raised it
    and it was passed on; so when every supplied id is one of the product
    type's, the check of lines 205-219 passes and, with a SKU cleaner that
    raises no error with that code, [clean_input] raises none. *)
Theorem clean_input_attribute_ids (instance : ProductVariant)
    (cleaned_input : CleanedInput AttributeValueInput) :
  let type := product_type (parent instance cleaned_input) in
  let invalid :=
    invalid_attributes to_global_id type (attributes cleaned_input) in
  (forall x,
      x ∈ invalid <->
      x ∈ map attribute_id (default [] (attributes cleaned_input))
      /\ x ∉ map (to_global_id "Attribute")
               (map attribute_pk (variant_attributes type)))
  /\ (field_checks_pass set_order cleaned_input -> invalid <> ∅ ->
      clean_input' instance cleaned_input
      = raise (VError "Given attributes are not a variant attributes."
                 ATTRIBUTE_CANNOT_BE_ASSIGNED (Some invalid)))
  /\ (forall message params,
         clean_input' instance cleaned_input
         = raise (VError message ATTRIBUTE_CANNOT_BE_ASSIGNED params) ->
         (invalid <> ∅
          /\ message = "Given attributes are not a variant attributes."
          /\ params = Some invalid)
         \/ (invalid = ∅
             /\ clean_variant_sku (default None (sku cleaned_input))
                = raise (VError message ATTRIBUTE_CANNOT_BE_ASSIGNED params)))
  /\ (invalid = ∅ ->
      check_attributes_ids to_global_id type (attributes cleaned_input)
      = ok tt)
  /\ (invalid = ∅ ->
      (forall message params,
          clean_variant_sku (default None (sku cleaned_input))
          <> raise (VError message ATTRIBUTE_CANNOT_BE_ASSIGNED params)) ->
      forall message params,
        clean_input' instance cleaned_input
        <> raise (VError message ATTRIBUTE_CANNOT_BE_ASSIGNED params)).
Proof.
  cbn zeta.
  assert (forall message params,
             clean_input' instance cleaned_input
             = raise (VError message ATTRIBUTE_CANNOT_BE_ASSIGNED params) ->
             (invalid_attributes to_global_id
                (product_type (parent instance cleaned_input))
                (attributes cleaned_input) <> ∅
              /\ message = "Given attributes are not a variant attributes."
              /\ params = Some (invalid_attributes to_global_id
                                  (product_type (parent instance cleaned_input))
                                  (attributes cleaned_input)))
             \/ (invalid_attributes to_global_id
                   (product_type (parent instance cleaned_input))
                   (attributes cleaned_input) = ∅
                 /\ clean_variant_sku (default None (sku cleaned_input))
                    = raise (VError message ATTRIBUTE_CANNOT_BE_ASSIGNED
                               params))) as Hcode.
  { intros message params Hraise.
    apply clean_input_raise in Hraise
      as [H|[H|[[? H]|[[? H]|[[? [? H]]|[[? H]|[? H]]]]]]];
      try discriminate H.
    - left. split; [done|]. by injection H as -> ->.
    - by right. }
  split; [|split; [|split; [|split]]].
  - intros x. apply elem_of_invalid_attributes.
  - intros (Hweight & Hlimit & Hstocks) Hne.
    rewrite clean_input_invalid by done.
    by rewrite Hweight, Hlimit, Hstocks.
  - exact Hcode.
  - intros Hempty. by rewrite check_attributes_ids_eq, decide_True.
  - intros Hempty Hsku message params Hraise.
    apply Hcode in Hraise as [[Hne _]|[_ Hraise]]; [done|].
    by apply Hsku in Hraise.
Qed.

(** C10, as amended.  The check of the attribute ids comes before the
    branch on [has_variants].  So with a supplied id that the product type
    does not have, [clean_input] raises the error of lines 215-219, code
    ATTRIBUTE_CANNOT_BE_ASSIGNED with the ids that the type does not have,
    whenever the weight, quantity-limit and stock checks before it pass,
    also for a product type without variants; and whether they pass or not,
    the outcome is an error of one of these four checks: INVALID under
    "weight", INVALID under "quantity_limit_per_customer", UNIQUE under
    "stocks" or ATTRIBUTE_CANNOT_BE_ASSIGNED.  The attribute cleaner, the
    registry, the SKU cleaner and [has_variants] have no part in it, and
    the INVALID error of line 248 and the REQUIRED and DUPLICATED_INPUT_ITEM
    errors that lines 227-245 raise under "attributes" are not raised. *)
Theorem clean_input_ids_before_has_variants (instance : ProductVariant)
    (cleaned_input : CleanedInput AttributeValueInput) :
  let type := product_type (parent instance cleaned_input) in
  let invalid :=
    invalid_attributes to_global_id type (attributes cleaned_input) in
  invalid <> ∅ ->
  (field_checks_pass set_order cleaned_input ->
   clean_input' instance cleaned_input
   = raise (VError "Given attributes are not a variant attributes."
              ATTRIBUTE_CANNOT_BE_ASSIGNED (Some invalid)))
  /\ clean_input' instance cleaned_input =
       (check_weight (weight cleaned_input);;
        check_quantity_limit_per_customer
          (quantity_limit_per_customer cleaned_input);;
        check_stocks set_order (stocks cleaned_input);;
        raise (VError "Given attributes are not a variant attributes."
                 ATTRIBUTE_CANNOT_BE_ASSIGNED (Some invalid)))
  /\ (forall cleaner' used_of' clean_variant_sku',
         clean_input slugify set_order to_global_id cleaner' used_of'
           clean_variant_sku' instance cleaned_input
         = clean_input' instance cleaned_input)
  /\ exists exc,
       clean_input' instance cleaned_input = raise exc
       /\ (exc = VErrorDict
                   [("weight",
                     VError "Product variant can't have negative weight."
                       INVALID None)]
           \/ exc = VErrorDict
                      [("quantity_limit_per_customer",
                        VError
                          "Product variant can't have quantity_limit_per_customer lower than 1."
                          INVALID None)]
           \/ exc = VErrorDict
                      [("stocks",
                        VError ("Duplicated warehouse ID: "
                                ++ join ", "
                                     (set_order
                                        (get_duplicated_values
                                           (map warehouse
                                              (default []
                                                 (stocks cleaned_input))))))
                          UNIQUE None)]
           \/ exc = VError "Given attributes are not a variant attributes."
                      ATTRIBUTE_CANNOT_BE_ASSIGNED (Some invalid))
       /\ (forall message params, exc <> VError message INVALID params)
       /\ (forall message params, exc <> VError message REQUIRED params)
       /\ (forall message params,
              exc <> VError message DUPLICATED_INPUT_ITEM params)
       /\ (forall inner, exc <> VErrorDict [("attributes", inner)]).
Proof.
  cbn zeta. intros Hne. split; [|split; [|split]].
  - intros (Hweight & Hlimit & Hstocks).
    rewrite clean_input_invalid by done.
    by rewrite Hweight, Hlimit, Hstocks.
  - by apply clean_input_invalid.
  - intros cleaner' used_of' clean_variant_sku'.
    by rewrite !clean_input_invalid.
  - rewrite clean_input_invalid by done.
    destruct (check_weight (weight cleaned_input);;
              check_quantity_limit_per_customer
                (quantity_limit_per_customer cleaned_input);;
              check_stocks set_order (stocks cleaned_input)) as [e|[]] eqn:Hfield.
    + destruct (field_checks_inl _ _ _ Hfield) as (exc & ->).
      exists exc. split.
      { revert Hfield.
        destruct (check_weight _); simpl; [by intros [= ->]|].
        destruct (check_quantity_limit_per_customer _); simpl;
          [by intros [= ->]|].
        destruct (check_stocks _ _); simpl; [by intros [= ->]|done]. }
      apply field_checks_raise in Hfield as [->|[->| ->]];
        (split; [eauto 10|repeat split; intros; discriminate]).
    + eexists. split.
      { revert Hfield.
        destruct (check_weight _); simpl; [done|].
        destruct (check_quantity_limit_per_customer _); simpl; [done|].
        by destruct (check_stocks _ _). }
      split; [eauto 10|repeat split; intros; discriminate].
Qed.

(** C4, as amended.  For an input that passes the weight, quantity-limit
    and stock checks: when the product type has no variants, a non-empty
    attribute list whose ids are all ids of the product type's variant
    attributes is refused with INVALID; when the product type has variants,
    the instance has no key, no attributes are supplied and some variant
    attribute of the product type is required, cleaning is refused with
    REQUIRED under "attributes". *)
Theorem clean_input_has_variants_branch (instance : ProductVariant)
    (cleaned_input : CleanedInput AttributeValueInput) :
  let type := product_type (parent instance cleaned_input) in
  field_checks_pass set_order cleaned_input ->
  (has_variants type = false ->
   list_truthy (attributes cleaned_input) = true ->
   invalid_attributes to_global_id type (attributes cleaned_input) = ∅ ->
   clean_input' instance cleaned_input = raise cannot_assign_error)
  /\ (has_variants type = true ->
      pk_truthy (pk instance) = false ->
      list_truthy (attributes cleaned_input) = false ->
      (exists attr, attr ∈ variant_attributes type
                    /\ value_required attr = true) ->
      clean_input' instance cleaned_input
      = raise (VErrorDict [("attributes", required_error)])).
Proof.
  cbn zeta. intros Hpass. split.
  - intros Hplain Hsome Hempty.
    destruct (clean_input_valid slugify set_order to_global_id cleaner used_of
                clean_variant_sku instance cleaned_input Hpass Hempty)
      as (k & -> & _).
    unfold clean_variant_attributes. by rewrite Hplain, Hsome.
  - intros Hvariants Hnew Hnone (attr & Hin & Hrequired).
    assert (invalid_attributes to_global_id
              (product_type (parent instance cleaned_input))
              (attributes cleaned_input) = ∅) as Hempty.
    { apply set_eq. intros x. rewrite elem_of_invalid_attributes.
      split; [|by intros ?%not_elem_of_empty]. intros [Hx _].
      destruct (attributes cleaned_input) as [[|? ?]|]; simpl in *;
        try done; by apply not_elem_of_nil in Hx. }
    destruct (clean_input_valid slugify set_order to_global_id cleaner used_of
                clean_variant_sku instance cleaned_input Hpass Hempty)
      as (k & -> & _).
    unfold clean_variant_attributes. rewrite Hvariants, Hnone, Hnew. simpl.
    assert (attr ∈ filter (fun a => value_required a = true)
                     (variant_attributes
                        (product_type (parent instance cleaned_input))))
      as Hfound by (by apply list_elem_of_filter).
    by destruct (filter _ _); [apply not_elem_of_nil in Hfound|].
Qed.

End CleanInputClaims.

(** A non-empty difference, past the field checks: a new variant of the
    voucher with an attribute that its type does not have.  With the size,
    which the card has, no error with that code is raised. *)
Lemma clean_input_attribute_ids_witness :
  Example.clean Example.empty_store (Example.fresh Example.voucher)
    (Example.input Example.voucher None None (Some [Example.colour_input]))
  = raise (VError "Given attributes are not a variant attributes."
             ATTRIBUTE_CANNOT_BE_ASSIGNED (Some {[ "Attribute:99" ]}))
  /\ forall message params,
       Example.clean Example.empty_store (Example.fresh Example.card)
         (Example.input Example.card None None (Some [Example.size_input]))
       <> raise (VError message ATTRIBUTE_CANNOT_BE_ASSIGNED params).
Proof.
  split.
  - refine (proj1 (proj2 (clean_input_attribute_ids
              Reference.slugify Reference.set_order Reference.to_global_id
              Reference.clean_attribute_inputs
              (Reference.get_used_variants_attribute_values
                 Example.empty_store)
              Reference.clean_variant_sku
              (Example.fresh Example.voucher)
              (Example.input Example.voucher None None
                 (Some [Example.colour_input])))) _ _).
    + by vm_compute.
    + apply (bool_decide_unpack _). by vm_compute.
  - refine (proj2 (proj2 (proj2 (proj2 (clean_input_attribute_ids
              Reference.slugify Reference.set_order Reference.to_global_id
              Reference.clean_attribute_inputs
              (Reference.get_used_variants_attribute_values
                 Example.empty_store)
              Reference.clean_variant_sku
              (Example.fresh Example.card)
              (Example.input Example.card None None
                 (Some [Example.size_input])))))) _ _).
    + apply (bool_decide_unpack _). by vm_compute.
    + intros message params. by vm_compute.
Defined.

(** C3 as stated fails: with the same attribute and a stocks list that
    names a warehouse twice, the difference is not empty and yet the error
    is UNIQUE under "stocks", not one with the code
    ATTRIBUTE_CANNOT_BE_ASSIGNED. *)
Lemma clean_input_attribute_ids_counterexample :
  invalid_attributes Reference.to_global_id Example.plain
    (Some [Example.colour_input]) = {[ "Attribute:99" ]}
  /\ Example.clean Example.empty_store (Example.fresh Example.voucher)
       (Example.input Example.voucher None (Some Example.twice)
          (Some [Example.colour_input]))
     = raise (VErrorDict
                [("stocks", VError "Duplicated warehouse ID: W1" UNIQUE None)])
  /\ forall message params,
       Example.clean Example.empty_store (Example.fresh Example.voucher)
         (Example.input Example.voucher None (Some Example.twice)
            (Some [Example.colour_input]))
       <> raise (VError message ATTRIBUTE_CANNOT_BE_ASSIGNED params).
Proof.
  split; [by vm_compute|]. split; [by vm_compute|].
  intros message params. by vm_compute.
Qed.

(** A product type without variants that has the size attribute: the
    colour is refused before [has_variants] is looked at. *)
Lemma clean_input_ids_before_has_variants_witness :
  has_variants (product_type Example.card) = false
  /\ Example.clean Example.empty_store (Example.fresh Example.card)
       (Example.input Example.card None None
          (Some [Example.colour_input; Example.size_input]))
     = raise (VError "Given attributes are not a variant attributes."
                ATTRIBUTE_CANNOT_BE_ASSIGNED (Some {[ "Attribute:99" ]})).
Proof.
  split; [reflexivity|].
  refine (proj1 (clean_input_ids_before_has_variants
            Reference.slugify Reference.set_order Reference.to_global_id
            Reference.clean_attribute_inputs
            (Reference.get_used_variants_attribute_values Example.empty_store)
            Reference.clean_variant_sku
            (Example.fresh Example.card)
            (Example.input Example.card None None
               (Some [Example.colour_input; Example.size_input])) _) _).
  - apply (bool_decide_unpack _). by vm_compute.
  - by vm_compute.
Defined.

(** C10 as stated fails: with a quantity limit of 0 the input that names
    the colour is refused with INVALID under "quantity_limit_per_customer",
    not with ATTRIBUTE_CANNOT_BE_ASSIGNED. *)
Lemma clean_input_ids_before_has_variants_counterexample :
  invalid_attributes Reference.to_global_id Example.plain
    (Some [Example.colour_input]) = {[ "Attribute:99" ]}
  /\ Example.clean Example.empty_store (Example.fresh Example.voucher)
       (Example.input Example.voucher (Some 0) None
          (Some [Example.colour_input]))
     = raise (VErrorDict
                [("quantity_limit_per_customer",
                  VError
                    "Product variant can't have quantity_limit_per_customer lower than 1."
                    INVALID None)])
  /\ forall message params,
       Example.clean Example.empty_store (Example.fresh Example.voucher)
         (Example.input Example.voucher (Some 0) None
            (Some [Example.colour_input]))
       <> raise (VError message ATTRIBUTE_CANNOT_BE_ASSIGNED params).
Proof.
  split; [by vm_compute|].
  split; [by vm_compute|]. intros message params. by vm_compute.
Qed.

(** A type without variants and an attribute of its own: INVALID.  A type
    with variants, a new instance, no attributes and a required attribute:
    REQUIRED under "attributes". *)
Lemma clean_input_has_variants_branch_witness :
  Example.clean Example.empty_store (Example.fresh Example.card)
    (Example.input Example.card None None (Some [Example.size_input]))
  = raise (VError "Cannot assign attributes for product type without variants"
                  INVALID None)
  /\ Example.clean Example.empty_store (Example.fresh Example.shirt)
       (Example.input Example.shirt None None None)
     = raise (VErrorDict
                [("attributes",
                  VError "All required attributes must take a value."
                         REQUIRED None)]).
Proof.
  split.
  - refine (proj1 (clean_input_has_variants_branch
              Reference.slugify Reference.set_order Reference.to_global_id
              Reference.clean_attribute_inputs
              (Reference.get_used_variants_attribute_values
                 Example.empty_store)
              Reference.clean_variant_sku
              (Example.fresh Example.card)
              (Example.input Example.card None None
                 (Some [Example.size_input])) _) _ _ _).
    + by vm_compute.
    + reflexivity.
    + reflexivity.
    + by vm_compute.
  - refine (proj2 (clean_input_has_variants_branch
              Reference.slugify Reference.set_order Reference.to_global_id
              Reference.clean_attribute_inputs
              (Reference.get_used_variants_attribute_values
                 Example.empty_store)
              Reference.clean_variant_sku
              (Example.fresh Example.shirt)
              (Example.input Example.shirt None None None) _) _ _ _ _).
    + by vm_compute.
    + reflexivity.
    + reflexivity.
    + reflexivity.
    + exists Example.size. split; [|reflexivity].
      apply (bool_decide_unpack _). by vm_compute.
Defined.

(** C4 as stated fails twice.  For a type without variants, an attribute
    that the type does not have is refused with
    ATTRIBUTE_CANNOT_BE_ASSIGNED, not INVALID.  For a type with variants and
    a required attribute, a new instance without attributes but with a
    stocks list that names a warehouse twice is refused with UNIQUE, not
    REQUIRED. *)
Lemma clean_input_has_variants_branch_counterexample :
  (has_variants (product_type Example.voucher) = false
   /\ Example.clean Example.empty_store (Example.fresh Example.voucher)
        (Example.input Example.voucher None None
           (Some [Example.colour_input]))
      = raise (VError "Given attributes are not a variant attributes."
                 ATTRIBUTE_CANNOT_BE_ASSIGNED (Some {[ "Attribute:99" ]})))
  /\ (has_variants (product_type Example.shirt) = true
      /\ value_required Example.size = true
      /\ Example.clean Example.empty_store (Example.fresh Example.shirt)
           (Example.input Example.shirt None (Some Example.twice) None)
         = raise (VErrorDict
                    [("stocks",
                      VError "Duplicated warehouse ID: W1" UNIQUE None)])).
Proof. repeat split; by vm_compute. Qed.

(** ** Saving *)

Lemma bind_ok {A B} (m : M A) (k : A -> M B) w b w' :
  (m ≫= k) w = (inr b, w') ->
  exists a w1, m w = (inr a, w1) /\ k a w1 = (inr b, w').
Proof.
  unfold mbind, M_bind. destruct (m w) as [[exc|a] w1]; [done|]. eauto.
Qed.

Lemma preserves_bind {T A B} (f : World -> T) (m : M A) (k : A -> M B) :
  preserves f m -> (forall a, preserves f (k a)) -> preserves f (m ≫= k).
Proof.
  intros Hm Hk w. unfold mbind, M_bind. specialize (Hm w).
  destruct (m w) as [[exc|a] w1]; simpl in *; [done|].
  by rewrite Hk.
Qed.

Lemma preserves_if {T A} (f : World -> T) (b : bool) (m1 m2 : M A) :
  preserves f m1 -> preserves f m2 -> preserves f (if b then m1 else m2).
Proof. by destruct b. Qed.

Lemma query_events {A} (op : Db A) : preserves events (query op).
Proof. intros w. unfold query. by destruct (op (store w)). Qed.

Lemma query_pointers {A} (op : Db A) :
  keeps_pointers op -> preserves (fun w => pointers (store w)) (query op).
Proof.
  intros Hop w. unfold query. specialize (Hop (store w)).
  by destruct (op (store w)).
Qed.

Lemma delay_events key : preserves events (delay key).
Proof. done. Qed.

(** What [preserves] gives at a run. *)
Lemma preserves_run {T A} (f : World -> T) (m : M A) w r w' :
  preserves f m -> m w = (r, w') -> f w' = f w.
Proof. intros Hm Hrun. specialize (Hm w). by rewrite Hrun in Hm. Qed.

Section SaveFacts.

Context `{C : Collaborators}.

Lemma set_default_variant_events instance :
  preserves events (set_default_variant instance).
Proof.
  unfold set_default_variant. destruct (default_variant _); [done|].
  apply preserves_bind; [apply query_events|done].
Qed.

Lemma create_variant_stocks_events variant stocks :
  preserves events (create_variant_stocks variant stocks).
Proof.
  unfold create_variant_stocks.
  apply preserves_bind; [apply query_events|]. intros. apply query_events.
Qed.

(** The instance after lines 327-329, when they do not raise. *)
Lemma set_default_variant_ok instance w instance' w' :
  set_default_variant instance w = (inr instance', w') ->
  pk instance' = pk instance
  /\ name instance' = name instance
  /\ product_pk (product instance') = product_pk (product instance)
  /\ default_variant (product instance')
     = match default_variant (product instance) with
       | Some v => Some v
       | None => pk instance
       end.
Proof.
  unfold set_default_variant.
  destruct (default_variant (product instance)) as [v|] eqn:Hpointer.
  - intros [= <- <-]. by rewrite Hpointer.
  - intros Hrun. apply bind_ok in Hrun as ([] & w1 & _ & [= <- <-]). done.
Qed.

Lemma save_block_eq new_variant instance cleaned_input :
  save_block new_variant instance cleaned_input =
    (key ← query (model_save instance);
     instance ← set_default_variant
                  {| pk := Some (default key (pk instance));
                     name := name instance; product := product instance |};
     after_default_variant new_variant cleaned_input instance).
Proof. reflexivity. Qed.

End SaveFacts.

Section SaveBlock.

Context `{C : Collaborators}.

(** When the rest of the block does not raise: one event, for this
    instance, is handed to [call_event]; the key and the product of the
    instance are as before. *)
Lemma after_default_variant_ok new_variant cleaned_input instance w instance' w' :
  after_default_variant new_variant cleaned_input instance w
    = (inr instance', w') ->
  pk instance' = pk instance
  /\ product instance' = product instance
  /\ events w'
     = events w ++ [(if new_variant then product_variant_created
                     else product_variant_updated, pk instance)].
Proof.
  unfold after_default_variant. intros Hrun.
  apply bind_ok in Hrun as ([] & w1 & H1 & Hrun).
  apply bind_ok in Hrun as ([] & w2 & H2 & Hrun).
  apply bind_ok in Hrun as ([] & w3 & H3 & Hrun).
  apply bind_ok in Hrun as (named & w4 & H4 & Hrun).
  apply bind_ok in Hrun as ([] & w5 & H5 & Hrun).
  apply bind_ok in Hrun as ([] & w6 & H6 & Hrun).
  injection Hrun as <- <-.
  apply (preserves_run events) in H1; [|apply delay_events].
  apply (preserves_run events) in H2;
    [|apply preserves_if; [apply create_variant_stocks_events|done]].
  apply (preserves_run events) in H3;
    [|apply preserves_if; [apply query_events|done]].
  apply (preserves_run events) in H5; [|apply query_events].
  assert (pk named = pk instance /\ product named = product instance
          /\ events w4 = events w3) as (Hpk & Hproduct & Hevents).
  { destruct (negb (str_truthy (name instance))).
    - apply bind_ok in H4 as (name' & w3' & Hname & [= <- <-]).
      apply (preserves_run events) in Hname; [done|apply query_events].
    - by injection H4 as <- <-. }
  injection H6 as <-. simpl.
  by rewrite H5, Hevents, H3, H2, H1, Hpk.
Qed.

(** When the block does not raise. *)
Lemma save_block_ok new_variant instance cleaned_input w instance' w' :
  save_block new_variant instance cleaned_input w = (inr instance', w') ->
  (exists key, pk instance' = Some (default key (pk instance)))
  /\ product_pk (product instance') = product_pk (product instance)
  /\ default_variant (product instance')
     = match default_variant (product instance) with
       | Some v => Some v
       | None => pk instance'
       end
  /\ events w'
     = events w ++ [(if new_variant then product_variant_created
                     else product_variant_updated, pk instance')].
Proof.
  rewrite save_block_eq. intros Hrun.
  apply bind_ok in Hrun as (key & w1 & Hsave & Hrun).
  apply bind_ok in Hrun as (pointed & w2 & Hdefault & Hrun).
  apply (preserves_run events) in Hsave; [|apply query_events].
  pose proof (preserves_run events _ _ _ _
                (set_default_variant_events _) Hdefault) as Hevents.
  apply set_default_variant_ok in Hdefault as (Hpk & _ & Hproduct & Hpointer).
  apply after_default_variant_ok in Hrun as (Hpk' & Hproduct' & Hevent).
  simpl in *. rewrite Hproduct', Hpk', Hpk, Hproduct, Hpointer.
  split; [by eexists|]. split; [done|]. split; [done|].
  by rewrite Hevent, Hevents, Hsave, Hpk.
Qed.

(** With collaborators that leave the default-variant column alone, so does
    the rest of the block. *)
Lemma after_default_variant_pointers new_variant cleaned_input instance :
  keep_default_variant C ->
  preserves (fun w => pointers (store w))
    (after_default_variant new_variant cleaned_input instance).
Proof.
  intros (_ & Hnodes & Hstocks & Hassign & Hname & Hsearch).
  unfold after_default_variant.
  apply preserves_bind; [done|]. intros _.
  apply preserves_bind.
  { apply preserves_if; [|done]. unfold create_variant_stocks.
    apply preserves_bind; [by apply query_pointers|].
    intros found. by apply query_pointers. }
  intros _. apply preserves_bind.
  { apply preserves_if; [by apply query_pointers|done]. }
  intros _. apply preserves_bind.
  { apply preserves_if; [|done].
    apply preserves_bind; [by apply query_pointers|done]. }
  intros named. apply preserves_bind; [by apply query_pointers|].
  intros _. apply preserves_bind; done.
Qed.

(** Lines 327-329 on the database: with the pointer unset and a row for
    the product, the pointer of that row becomes the key of the instance;
    in every other case the column is as before. *)
Lemma set_default_variant_pointers instance w r w' :
  set_default_variant instance w = (r, w') ->
  pointers (store w')
  = match default_variant (product instance), r with
    | None, inr _ =>
        <[product_pk (product instance) := pk instance]> (pointers (store w))
    | _, _ => pointers (store w)
    end.
Proof.
  unfold set_default_variant.
  destruct (default_variant (product instance)) as [v|].
  - by intros [= <- <-].
  - unfold mbind, M_bind, query, product_save_default_variant. simpl.
    destruct (products (store w) !! product_pk (product instance)) as [row|].
    + intros [= <- <-]. simpl. unfold pointers. simpl.
      by rewrite fmap_insert.
    + by intros [= <- <-].
Qed.

End SaveBlock.

(** The collaborators of the example leave the default-variant column
    alone. *)
Lemma reference_keep_default_variant time :
  keep_default_variant (Reference.collaborators time).
Proof.
  unfold keep_default_variant. split; [done|]. split; [|split; [done|]].
  { intros ids s. cbn. unfold Reference.get_nodes_or_error.
    by case_decide. }
  split; [|split; [done|]].
  - intros instance pairs s. cbn. generalize (default 0 (pk instance)).
    intros key. revert s.
    induction pairs as [|[attr x] rest IH]; intros s; [done|]. simpl.
    destruct (attr_values Reference.slugify attr x); [done|].
    by rewrite IH.
  - intros product s. cbn. unfold Reference.update_product_search_vector.
    destruct (products s !! product_pk product) as [row|] eqn:Hrow; [|done].
    unfold pointers. simpl. rewrite fmap_insert. apply insert_id.
    by rewrite lookup_fmap, Hrow.
Qed.

(** C5.  The steps of [save] all run inside the transaction: when one of
    them raises, [save] raises the same exception and the database is the
    one [save] was called on, whatever the steps had written; when none
    raises, the database is the one the last step left. *)
Theorem save_atomic `{C : Collaborators} (instance : ProductVariant)
    (cleaned_input : CleanedInput (Attribute * AttrValuesInput))
    (w : World) (exc : Exception) (w' : World) :
  save instance cleaned_input w = (inl exc, w') ->
  store w' = store w
  /\ (exists w'',
        save_block (bool_decide (pk instance = None)) instance cleaned_input w
        = (inl exc, w'')
        /\ price_tasks w' = price_tasks w'' /\ events w' = events w'')
  /\ forall instance0 cleaned_input0 w0 result w0',
       save instance0 cleaned_input0 w0 = (result, w0') ->
       match result with
       | inl _ => store w0' = store w0
       | inr _ =>
           (result, w0')
           = save_block (bool_decide (pk instance0 = None)) instance0
               cleaned_input0 w0
       end.
Proof.
  intros Hrun. split; [|split].
  - revert Hrun. unfold save, traced_atomic_transaction.
    destruct (save_block _ _ _ _) as [[e|a] w'']; [|done].
    by intros [= _ <-].
  - revert Hrun. unfold save, traced_atomic_transaction.
    destruct (save_block _ _ _ _) as [[e|a] w'']; [|done].
    intros [= <- <-]. by exists w''.
  - intros instance0 cleaned_input0 w0 result w0'.
    unfold save, traced_atomic_transaction.
    destruct (save_block _ _ _ _) as [[e|a] w'']; by intros [= <- <-].
Qed.

(** Inside the block the stock row is written before the attribute rows
    are refused: the state that the transaction undoes. *)
Example save_block_partial_state :
  let after :=
    (@save_block (Reference.collaborators 7) true
       (Example.fresh Example.shirt) (Example.cleaned Example.valueless)
       (Example.world Example.shop)).2 in
  stock_rows (store after) = [(1, "W1", 5)]
  /\ attribute_rows (store after) = [].
Proof. by vm_compute. Qed.

(** The save of the example that is refused at the attribute rows. *)
Lemma save_atomic_witness :
  store (@save (Reference.collaborators 7) (Example.fresh Example.shirt)
           (Example.cleaned Example.valueless)
           (Example.world Example.shop)).2
  = Example.shop.
Proof.
  refine (proj1 (@save_atomic (Reference.collaborators 7)
                   (Example.fresh Example.shirt)
                   (Example.cleaned Example.valueless)
                   (Example.world Example.shop)
                   (Invalid
                      (VError "Attribute expects a value but none were given."
                              REQUIRED None))
                   _ _)).
  by vm_compute.
Defined.

Lemma save_ok `{C : Collaborators} instance cleaned_input w instance' w' :
  save instance cleaned_input w = (inr instance', w') ->
  save_block (bool_decide (pk instance = None)) instance cleaned_input w
  = (inr instance', w').
Proof.
  unfold save, traced_atomic_transaction.
  destruct (save_block _ _ _ _) as [[e|a] w'']; [done|]. by intros [= <- <-].
Qed.

(** C6.  A save that succeeds hands exactly one event to [call_event]:
    "created" when the instance had no key when [save] was called,
    "updated" otherwise.  The instance has a key afterwards, so every later
    successful save of it adds one "updated" event and no "created" one. *)
Theorem save_emits_one_event `{C : Collaborators} (instance : ProductVariant)
    (cleaned_input : CleanedInput (Attribute * AttrValuesInput))
    (w : World) (instance' : ProductVariant) (w' : World) :
  save instance cleaned_input w = (inr instance', w') ->
  events w'
  = events w ++ [(match pk instance with
                  | None => product_variant_created
                  | Some _ => product_variant_updated
                  end, pk instance')]
  /\ (exists key, pk instance' = Some key)
  /\ (forall key, pk instance = Some key -> pk instance' = Some key)
  /\ forall cleaned_input2 w2 instance2 w2',
       save instance' cleaned_input2 w2 = (inr instance2, w2') ->
       events w2' = events w2 ++ [(product_variant_updated, pk instance2)]
       /\ pk instance2 = pk instance'.
Proof.
  intros Hrun. apply save_ok, save_block_ok in Hrun
    as ([key Hkey] & _ & _ & Hevents).
  split; [|split; [|split]].
  - rewrite Hevents. by destruct (pk instance).
  - by eexists.
  - intros key' Hpk. by rewrite Hkey, Hpk.
  - intros cleaned_input2 w2 instance2 w2' Hagain.
    apply save_ok, save_block_ok in Hagain
      as ([key2 Hkey2] & _ & _ & Hevents2).
    by rewrite Hevents2, Hkey2, Hkey.
Qed.

(** The first save of a new variant of the shirt, and a second save of the
    instance it leaves. *)
Lemma save_emits_one_event_witness :
  let first :=
    @save (Reference.collaborators 7) (Example.fresh Example.shirt)
      (Example.cleaned Example.small) (Example.world Example.shop) in
  events first.2 = [(product_variant_created, Some 1)]
  /\ forall saved,
       first.1 = inr saved ->
       events (@save (Reference.collaborators 8) saved
                 (Example.cleaned Example.small) first.2).2
       = [(product_variant_created, Some 1);
          (product_variant_updated, Some 1)].
Proof.
  cbn zeta. split.
  - refine (proj1 (@save_emits_one_event (Reference.collaborators 7)
                     (Example.fresh Example.shirt)
                     (Example.cleaned Example.small)
                     (Example.world Example.shop)
                     {| pk := Some 1; name := Some "SKU-1";
                        product :=
                          {| product_pk := 10; default_variant := Some 1;
                             product_type := Example.configurable |} |}
                     _ _)).
    by vm_compute.
  - intros saved Hsaved. vm_compute in Hsaved. injection Hsaved as <-.
    by vm_compute.
Defined.

(** C7.  Lines 327-329 of [save]: when the in-memory product has no default
    variant, the pointer is set to the saved instance and the product is
    saved with [update_fields]: of its row only the default-variant and
    updated-at columns are written, and nothing else in the database; when
    the product has a default variant, the step writes nothing.  After a
    successful [save] the product of the instance points to the variant it
    pointed to before, or to the saved instance if it pointed to none.  With
    collaborators that do not write the default-variant column, [save]
    changes that column only in the row of the product and only from unset
    to the saved instance; a pointer that is set, and that the in-memory
    product shows, is the same after any [save]. *)
Theorem save_default_variant_once `{C : Collaborators}
    (instance : ProductVariant)
    (cleaned_input : CleanedInput (Attribute * AttrValuesInput))
    (w : World) (result : Exception + ProductVariant) (w' : World) :
  save instance cleaned_input w = (result, w') ->
  (forall v w0,
      default_variant (product instance) = Some v ->
      set_default_variant instance w0 = (inr instance, w0))
  /\ (forall row w0,
         default_variant (product instance) = None ->
         products (store w0) !! product_pk (product instance) = Some row ->
         set_default_variant instance w0
         = (inr {| pk := pk instance; name := name instance;
                   product :=
                     {| product_pk := product_pk (product instance);
                        default_variant := pk instance;
                        product_type := product_type (product instance) |} |},
            {| store :=
                 {| products :=
                      <[product_pk (product instance) :=
                          {| row_default_variant := pk instance;
                             row_updated_at := now;
                             row_columns := row_columns row |}]>
                        (products (store w0));
                    variants := variants (store w0);
                    warehouses := warehouses (store w0);
                    stock_rows := stock_rows (store w0);
                    attribute_rows := attribute_rows (store w0) |};
               price_tasks := price_tasks w0;
               events := events w0 |}))
  /\ (forall instance',
         result = inr instance' ->
         default_variant (product instance')
         = match default_variant (product instance) with
           | Some v => Some v
           | None => pk instance'
           end)
  /\ (keep_default_variant C ->
      pointers (store w')
      = match default_variant (product instance), result with
        | None, inr instance' =>
            <[product_pk (product instance) := pk instance']>
              (pointers (store w))
        | _, _ => pointers (store w)
        end)
  /\ (keep_default_variant C ->
      forall p v,
        pointers (store w) !! p = Some (Some v) ->
        (product_pk (product instance) = p ->
         default_variant (product instance) = Some v) ->
        pointers (store w') !! p = Some (Some v)).
Proof.
  intros Hrun.
  assert (keep_default_variant C ->
          pointers (store w')
          = match default_variant (product instance), result with
            | None, inr instance' =>
                <[product_pk (product instance) := pk instance']>
                  (pointers (store w))
            | _, _ => pointers (store w)
            end) as Hpointers.
  { intros Hkeep. revert Hrun. unfold save, traced_atomic_transaction.
    destruct (save_block _ _ _ _) as [[e|saved] w''] eqn:Hblock.
    - intros [= <- <-]. by destruct (default_variant (product instance)).
    - intros [= <- <-]. rewrite save_block_eq in Hblock.
      apply bind_ok in Hblock as (key & w1 & Hsave & Hblock).
      apply bind_ok in Hblock as (pointed & w2 & Hdefault & Hblock).
      pose proof Hkeep as (Hmodel & _).
      apply (preserves_run (fun w => pointers (store w))) in Hsave;
        [|by apply query_pointers].
      pose proof (set_default_variant_pointers _ _ _ _ Hdefault) as Hset.
      apply set_default_variant_ok in Hdefault as (Hpk & _ & _ & _).
      pose proof (preserves_run _ _ _ _ _
                    (after_default_variant_pointers _ _ _ Hkeep) Hblock)
        as Hrest.
      apply after_default_variant_ok in Hblock as (Hpk' & _ & _).
      simpl in *. rewrite Hrest, Hset, Hsave, Hpk', Hpk.
      by destruct (default_variant (product instance)). }
  split; [|split; [|split; [|split]]].
  - intros v w0 Hset. unfold set_default_variant. by rewrite Hset.
  - intros row w0 Hunset Hrow. unfold set_default_variant.
    rewrite Hunset. unfold mbind, M_bind, query, product_save_default_variant.
    simpl. by rewrite Hrow.
  - intros instance' ->. by apply save_ok, save_block_ok in Hrun as (_ & _ & ? & _).
  - done.
  - intros Hkeep p v Hp Hshown. rewrite (Hpointers Hkeep).
    destruct (default_variant (product instance)) as [v'|] eqn:Hpointer;
      [done|].
    destruct result as [e|instance']; [done|].
    rewrite lookup_insert_ne; [done|]. intros Heq.
    by specialize (Hshown Heq).
Qed.

(** The first variant of the shirt becomes its default variant; the save
    of a second variant, whose product shows that pointer, leaves it. *)
Lemma save_default_variant_once_witness :
  let first :=
    @save (Reference.collaborators 7) (Example.fresh Example.shirt)
      (Example.cleaned Example.small) (Example.world Example.shop) in
  let second :=
    @save (Reference.collaborators 8)
      (Example.fresh Example.shirt_with_default)
      (Example.cleaned Example.assignment) first.2 in
  pointers (store first.2) !! 10 = Some (Some 1)
  /\ pointers (store second.2) !! 10 = Some (Some 1).
Proof.
  cbn zeta. split.
  - destruct (@save (Reference.collaborators 7) (Example.fresh Example.shirt)
                (Example.cleaned Example.small) (Example.world Example.shop))
      as [result1 w1] eqn:Hfirst.
    pose proof (@save_default_variant_once (Reference.collaborators 7)
                  _ _ _ _ _ Hfirst) as (_ & _ & _ & Hpointers & _).
    cbn [snd]. rewrite (Hpointers (reference_keep_default_variant 7)).
    vm_compute in Hfirst. injection Hfirst as <- _. by vm_compute.
  - destruct (@save (Reference.collaborators 8)
                (Example.fresh Example.shirt_with_default)
                (Example.cleaned Example.assignment) _)
      as [result2 w2] eqn:Hsecond.
    refine (proj2 (proj2 (proj2 (proj2
             (@save_default_variant_once (Reference.collaborators 8)
                _ _ _ _ _ Hsecond))))
             (reference_keep_default_variant 8) 10 1 _ _).
    + by vm_compute.
    + reflexivity.
Defined.

(** Two creations one after the other with the same attributes: the first
    is cleaned and saved, the second is refused with DUPLICATED_INPUT_ITEM
    under "attributes". *)
Example same_attributes_twice :
  exists cleaned saved w',
    Example.clean Example.shop (Example.fresh Example.shirt)
      (Example.input Example.shirt None None (Some [Example.size_input]))
    = ok cleaned
    /\ @save (Reference.collaborators 7) (Example.fresh Example.shirt)
         cleaned (Example.world Example.shop) = (inr saved, w')
    /\ Example.clean (store w') (Example.fresh Example.shirt_with_default)
         (Example.input Example.shirt_with_default None None
            (Some [Example.size_input]))
       = raise (VErrorDict
                  [("attributes",
                    VError "Duplicated attribute values for product variant."
                           DUPLICATED_INPUT_ITEM (Some {[ "Attribute:2" ]}))]).
Proof.
  eexists _, _, _. split; [by vm_compute|]. split; by vm_compute.
Qed.

(** * Further properties *)

(** ** The identifier of a file *)

(** A string without the separator is its own single piece. *)
Lemma split_without sep s : occurs sep s = false -> split sep s = [s].
Proof.
  induction s as [|c rest IH]; [done|]. simpl.
  destruct (Ascii.eqb c sep); [done|]. simpl. intros Hrest.
  by rewrite IH.
Qed.

(** [(a + sep + b).split(sep) == a.split(sep) + b.split(sep)] *)
Lemma split_append sep a b :
  split sep (a +:+ String sep b) = split sep a ++ split sep b.
Proof.
  induction a as [|c a IH].
  - change (split sep (String sep b) = split sep "" ++ split sep b).
    simpl. by rewrite Ascii.eqb_refl.
  - rewrite append_cons. simpl. rewrite IH.
    destruct (Ascii.eqb c sep); [done|].
    by destruct (split_cons_inv sep a) as (head & tail & ->).
Qed.

Lemma last_item_split_append sep before segment :
  occurs sep segment = false ->
  last_item (split sep (before +:+ String sep segment)) = segment.
Proof.
  intros Hfree. rewrite split_append, (split_without _ _ Hfree).
  unfold last_item. by rewrite last_snoc.
Qed.

(** Dictionaries built from assignments that agree, pair by pair, on the
    global id and on what the pair contributes are the same. *)
Lemma collect_ext slugify data1 data2 d :
  Forall2 (fun p q => global_id p.2 = global_id q.2
                      /\ attr_values slugify p.1 p.2
                         = attr_values slugify q.1 q.2) data1 data2 ->
  collect slugify data1 d = collect slugify data2 d.
Proof.
  intros Hsame. revert d.
  induction Hsame as [|[a1 x1] [a2 x2] rest1 rest2 [Hid Hvalues] _ IH];
    intros d; [done|].
  simpl in *. by rewrite Hid, Hvalues, IH.
Qed.

(** X1.  For a FILE attribute only the part of [file_url] after its last
    "/" counts.  A pair whose url ends in "/" followed by a name without
    "/" contributes the slug of that name (of the empty string when the url
    ends in "/").  So two assignments that differ only in the directory of
    one file have the same signature, and the second is rejected, with the
    error of code DUPLICATED_INPUT_ITEM that names its global ids, once the
    first has been validated. *)
Theorem file_identifier_from_file_name (slugify : string -> string)
    (attr : Attribute) (x1 x2 : AttrValuesInput)
    (before1 before2 segment : string) (pre post : T_INPUT_MAP) :
  input_type attr = FILE ->
  occurs "/" segment = false ->
  file_url x1 = Some (before1 +:+ String "/" segment) ->
  file_url x2 = Some (before2 +:+ String "/" segment) ->
  global_id x1 = global_id x2 ->
  attr_values slugify attr x1 = [slugify segment]
  /\ attribute_values slugify (pre ++ (attr, x1) :: post)
     = attribute_values slugify (pre ++ (attr, x2) :: post)
  /\ forall used,
       (validate_duplicated_attribute_values slugify
          (pre ++ (attr, x2) :: post)
          (validate_duplicated_attribute_values slugify
             (pre ++ (attr, x1) :: post) used).2).1
       = raise (VError "Duplicated attribute values for product variant."
                  DUPLICATED_INPUT_ITEM
                  (Some (list_to_set (ids (pre ++ (attr, x2) :: post))))).
Proof.
  intros Hkind Hfree Hurl1 Hurl2 Hid.
  assert (forall x before,
             file_url x = Some (before +:+ String "/" segment) ->
             attr_values slugify attr x = [slugify segment]) as Hslug.
  { intros x before Hurl.
    rewrite (attr_values_file slugify attr x _ Hkind Hurl).
    - by rewrite last_item_split_append.
    - by destruct before. }
  assert (attribute_values slugify (pre ++ (attr, x1) :: post)
          = attribute_values slugify (pre ++ (attr, x2) :: post)) as Hsame.
  { apply collect_ext, Forall2_app; [|constructor].
    - by apply Forall_Forall2_diag, Forall_forall.
    - simpl. by rewrite (Hslug x1 before1), (Hslug x2 before2).
    - by apply Forall_Forall2_diag, Forall_forall. }
  split; [by apply (Hslug x1 before1)|]. split; [done|].
  intros used. rewrite validate_raises; [by rewrite duplicated_error_eq|].
  rewrite <- Hsame. apply validate_registers.
Qed.

(** The same picture from two places: one signature, and the second is
    rejected after the first. *)
Lemma file_identifier_from_file_name_witness :
  attribute_values Reference.slugify
    [(Example.image,
      {| global_id := Example.image_id; values := [];
         file_url := Some "https://cdn.example.com/media/Front View.PNG" |})]
  = attribute_values Reference.slugify
      [(Example.image,
        {| global_id := Example.image_id; values := [];
           file_url := Some "/uploads/Front View.PNG" |})]
  /\ (validate_duplicated_attribute_values Reference.slugify
        [(Example.image,
          {| global_id := Example.image_id; values := [];
             file_url := Some "/uploads/Front View.PNG" |})]
        (validate_duplicated_attribute_values Reference.slugify
           [(Example.image,
             {| global_id := Example.image_id; values := [];
                file_url :=
                  Some "https://cdn.example.com/media/Front View.PNG" |})]
           []).2).1
     = raise (VError "Duplicated attribute values for product variant."
                DUPLICATED_INPUT_ITEM (Some {[ "Attribute:1" ]})).
Proof.
  pose proof (file_identifier_from_file_name Reference.slugify
                Example.image
                {| global_id := Example.image_id; values := [];
                   file_url :=
                     Some "https://cdn.example.com/media/Front View.PNG" |}
                {| global_id := Example.image_id; values := [];
                   file_url := Some "/uploads/Front View.PNG" |}
                "https://cdn.example.com/media" "/uploads"
                "Front View.PNG" [] [] eq_refl eq_refl eq_refl eq_refl eq_refl)
    as (_ & Hsame & Hsecond).
  split; [exact Hsame|exact (Hsecond [])].
Defined.

(** ** Order and repetition *)

(** With pairwise distinct global ids every pair contributes the whole
    list under its id. *)
Lemma values_under_unique slugify data attr x :
  NoDup (ids data) -> (attr, x) ∈ data ->
  values_under slugify (global_id x) data = attr_values slugify attr x.
Proof.
  induction data as [|[attr0 x0] rest IH]; intros Hnodup Hin.
  - by apply elem_of_nil in Hin.
  - rewrite ids_cons in Hnodup. apply NoDup_cons in Hnodup as [Hfresh Hrest].
    apply elem_of_cons in Hin as [[= -> ->]|Hin]; simpl.
    + rewrite decide_True by done.
      by rewrite values_under_absent, app_nil_r.
    + rewrite decide_False; [by apply IH|].
      intros Hid. apply Hfresh. rewrite Hid.
      by apply (list_elem_of_fmap_2 (fun p => global_id p.2) _ (attr, x)).
Qed.

(** X2.  The signature does not depend on the order of the pairs: two
    assignments with the same pairs in any order, each global id occurring
    once, give the same dictionary and so the same outcome against any
    registry.  (The order of the values under one id does count.) *)
Theorem attribute_values_any_order (slugify : string -> string)
    (data1 data2 : T_INPUT_MAP) :
  data1 ≡ₚ data2 ->
  NoDup (ids data1) ->
  attribute_values slugify data1 = attribute_values slugify data2
  /\ forall used,
       (validate_duplicated_attribute_values slugify data1 used).1
       = (validate_duplicated_attribute_values slugify data2 used).1.
Proof.
  intros Hperm Hnodup.
  assert (ids data1 ≡ₚ ids data2) as Hids by (by apply Permutation_map).
  assert (attribute_values slugify data1 = attribute_values slugify data2)
    as Hsame.
  { apply map_eq. intros key. rewrite !attribute_values_lookup.
    destruct (decide (key ∈ ids data1)) as [Hin|Hnot].
    - rewrite decide_True by (by rewrite <- Hids).
      apply list_elem_of_fmap in Hin as ([attr x] & -> & Hin). simpl.
      rewrite (values_under_unique slugify data1 attr x) by done.
      rewrite (values_under_unique slugify data2 attr x); [done|..].
      + by rewrite <- Hids.
      + by rewrite <- Hperm.
    - by rewrite decide_False by (by rewrite <- Hids). }
  split; [done|]. intros used.
  unfold validate_duplicated_attribute_values. rewrite Hsame.
  by case_decide.
Qed.

(** The assignment of the example with its two pairs exchanged. *)
Lemma attribute_values_any_order_witness :
  attribute_values Reference.slugify Example.assignment
  = attribute_values Reference.slugify (rev Example.assignment).
Proof.
  refine (proj1 (attribute_values_any_order Reference.slugify
                   Example.assignment (rev Example.assignment) _ _)).
  - apply Permutation_rev.
  - apply (bool_decide_unpack _). by vm_compute.
Defined.

(** Without distinct ids the order of the pairs counts: the lists of two
    pairs under one id are put together in the order of the pairs. *)
Example same_id_order_counts :
  attribute_values Reference.slugify
    [(Example.size, {| global_id := "A"; values := ["s"]; file_url := None |});
     (Example.size, {| global_id := "A"; values := ["m"]; file_url := None |})]
  <> attribute_values Reference.slugify
       [(Example.size, {| global_id := "A"; values := ["m"]; file_url := None |});
        (Example.size, {| global_id := "A"; values := ["s"]; file_url := None |})].
Proof. by vm_compute. Qed.

(** X3.  The registry never comes to hold a signature twice: calls on a
    registry without repetition leave it without repetition, and every
    entry of the registry afterwards was there before or is the signature
    of one of the candidates. *)
Theorem validate_each_no_repetition (slugify : string -> string)
    (candidates : list T_INPUT_MAP)
    (used : list (gmap string (list string))) :
  NoDup used ->
  NoDup (validate_each slugify candidates used).2
  /\ forall s : gmap string (list string),
       s ∈ (validate_each slugify candidates used).2 ->
       s ∈ used
       \/ exists candidate,
            candidate ∈ candidates /\ s = attribute_values slugify candidate.
Proof.
  revert used. induction candidates as [|c rest IH]; intros used Hnodup.
  - split; [done|]. by left.
  - rewrite validate_each_cons. cbn zeta. cbn [snd].
    assert (NoDup (validate_duplicated_attribute_values slugify c used).2
            /\ forall s : gmap string (list string),
                 s ∈ (validate_duplicated_attribute_values slugify c used).2 ->
                 s ∈ used \/ s = attribute_values slugify c) as [Hstep Hfrom].
    { unfold validate_duplicated_attribute_values.
      case_decide as Hin; simpl; [by split; [|left]|]. split.
      - apply NoDup_app. split; [done|]. split; [|apply NoDup_singleton].
        intros s Hs ->%list_elem_of_singleton. done.
      - intros s [Hs| ->%list_elem_of_singleton]%elem_of_app;
          [by left|by right]. }
    destruct (IH _ Hstep) as [Hrest Hall]. split; [done|].
    intros s Hs. destruct (Hall s Hs) as [Hold|(candidate & Hcand & ->)].
    + destruct (Hfrom s Hold) as [?| ->]; [by left|].
      right. exists c. split; [apply elem_of_cons; by left|done].
    + right. exists candidate. split; [apply elem_of_cons; by right|done].
Qed.

(** Three candidates, two of them equal, against an empty registry. *)
Lemma validate_each_no_repetition_witness :
  NoDup (validate_each Reference.slugify
           [Example.assignment; Example.small; Example.assignment] []).2.
Proof.
  refine (proj1 (validate_each_no_repetition Reference.slugify
                   [Example.assignment; Example.small; Example.assignment]
                   [] _)).
  apply NoDup_nil_2.
Defined.

Lemma validate_accepts_fst slugify data
    (used : list (gmap string (list string))) :
  attribute_values slugify data ∉ used ->
  (validate_duplicated_attribute_values slugify data used).1 = ok tt.
Proof.
  intros Hnot. unfold validate_duplicated_attribute_values.
  by rewrite decide_False.
Qed.

(** ** More on cleaning *)

Section CleanInputMore.

Variable slugify : string -> string.
Variable set_order : gset string -> list string.
Variable to_global_id : string -> Z -> string.
Variable cleaner : list AttributeValueInput -> list Attribute -> Result T_INPUT_MAP.
Variable used_of : Product -> list (gmap string (list string)).
Variable clean_variant_sku : option string -> Result (option string).

Local Abbreviation clean_input' :=
  (clean_input slugify set_order to_global_id cleaner used_of clean_variant_sku).

(** X4.  [clean_input] stops at the first check that fails, in the order
    weight, quantity limit, stocks: a negative weight is reported, INVALID
    under "weight", whatever else the input holds; with a weight that is
    absent or not negative a quantity limit below 1 is reported, INVALID
    under "quantity_limit_per_customer"; with both acceptable a warehouse
    named twice is reported, UNIQUE under "stocks" with the repeated ids in
    the message.  None of these depends on the attributes, the product or
    the collaborators. *)
Theorem clean_input_first_failure (instance : ProductVariant)
    (cleaned_input : CleanedInput AttributeValueInput) :
  (forall w,
      weight cleaned_input = Some w -> (value w < 0)%Q ->
      clean_input' instance cleaned_input
      = raise (VErrorDict
                 [("weight",
                   VError "Product variant can't have negative weight."
                     INVALID None)]))
  /\ (forall n,
         (forall w, weight cleaned_input = Some w -> (0 <= value w)%Q) ->
         quantity_limit_per_customer cleaned_input = Some n -> n < 1 ->
         clean_input' instance cleaned_input
         = raise (VErrorDict
                    [("quantity_limit_per_customer",
                      VError
                        "Product variant can't have quantity_limit_per_customer lower than 1."
                        INVALID None)]))
  /\ (forall l,
         (forall w, weight cleaned_input = Some w -> (0 <= value w)%Q) ->
         (forall n, quantity_limit_per_customer cleaned_input = Some n ->
                    1 <= n) ->
         stocks cleaned_input = Some l -> ~ NoDup (map warehouse l) ->
         clean_input' instance cleaned_input
         = raise (VErrorDict
                    [("stocks",
                      VError ("Duplicated warehouse ID: "
                              ++ join ", "
                                   (set_order
                                      (get_duplicated_values
                                         (map warehouse l))))
                        UNIQUE None)])).
Proof.
  assert ((forall w, weight cleaned_input = Some w -> (0 <= value w)%Q) ->
          check_weight (weight cleaned_input) = ok tt) as Hweight_ok.
  { intros Hweight. unfold check_weight.
    destruct (weight cleaned_input) as [w|]; [|done].
    destruct (Qlt_le_dec (value w) 0) as [Hlt|]; [|done].
    by apply Qlt_not_le in Hlt; destruct Hlt; apply Hweight. }
  assert ((forall n, quantity_limit_per_customer cleaned_input = Some n ->
                     1 <= n) ->
          check_quantity_limit_per_customer
            (quantity_limit_per_customer cleaned_input) = ok tt) as Hlimit_ok.
  { intros Hlimit. unfold check_quantity_limit_per_customer.
    destruct (quantity_limit_per_customer cleaned_input) as [n|]; [|done].
    destruct (Z.ltb_spec n 1) as [Hlt|]; [|done].
    specialize (Hlimit n eq_refl). lia. }
  split; [|split].
  - intros w Hweight Hnegative. unfold clean_input, check_weight.
    rewrite Hweight. destruct (Qlt_le_dec (value w) 0) as [|Hle]; [done|].
    by apply Qle_not_lt in Hle.
  - intros n Hweight%Hweight_ok Hlimit Hlow. unfold clean_input.
    rewrite Hweight, Hlimit. simpl.
    by rewrite (proj2 (Z.ltb_lt n 1) Hlow).
  - intros l Hweight%Hweight_ok Hlimit%Hlimit_ok Hstocks Hdup.
    unfold clean_input.
    rewrite Hweight, Hlimit, Hstocks. simpl.
    unfold check_stocks, check_for_duplicates_in_stocks.
    destruct l as [|stock l]; [by destruct Hdup; constructor|]. simpl.
    rewrite decide_True; [done|].
    by rewrite get_duplicated_values_empty.
Qed.

(** What a successful [clean_input] went through. *)
Lemma clean_input_ok instance cleaned_input cleaned :
  clean_input' instance cleaned_input = ok cleaned ->
  field_checks_pass set_order cleaned_input
  /\ invalid_attributes to_global_id
       (product_type (parent instance cleaned_input))
       (attributes cleaned_input) = ∅
  /\ exists pairs cleaned_sku,
       clean_variant_attributes slugify cleaner instance
         (product_type (parent instance cleaned_input))
         (used_of (parent instance cleaned_input))
         (attributes cleaned_input) = ok pairs
       /\ clean_sku clean_variant_sku (sku cleaned_input) = ok cleaned_sku
       /\ cleaned
          = {| weight := weight cleaned_input;
               quantity_limit_per_customer :=
                 quantity_limit_per_customer cleaned_input;
               stocks := stocks cleaned_input;
               input_product := input_product cleaned_input;
               attributes := pairs;
               sku := cleaned_sku;
               preorder := preorder cleaned_input;
               is_preorder :=
                 if preorder_truthy (preorder cleaned_input) then Some true
                 else is_preorder cleaned_input;
               preorder_global_threshold :=
                 if preorder_truthy (preorder cleaned_input)
                 then get global_threshold (preorder cleaned_input)
                 else preorder_global_threshold cleaned_input;
               preorder_end_date :=
                 if preorder_truthy (preorder cleaned_input)
                 then get end_date (preorder cleaned_input)
                 else preorder_end_date cleaned_input |}.
Proof.
  unfold clean_input, field_checks_pass.
  fold (parent instance cleaned_input).
  destruct (check_weight _) as [|[]]; [done|].
  destruct (check_quantity_limit_per_customer _) as [|[]]; [done|].
  destruct (check_stocks _ _) as [|[]]; [done|]. simpl.
  rewrite check_attributes_ids_eq. case_decide as Hempty; [|done]. simpl.
  destruct (clean_variant_attributes _ _ _ _ _ _) as [|pairs]; [done|]. simpl.
  destruct (clean_sku _ _) as [|cleaned_sku]; [done|]. simpl.
  intros [= <-]. eauto 10.
Qed.

(** X5.  A cleaned input meets the field rules: its weight, if any, is
    not negative; its quantity limit, if any, is at least 1; its stocks name
    no warehouse twice; every attribute id of the input is the global id of
    a variant attribute of the product type.  The weight, quantity limit,
    stocks, product and preorder block are those of the input. *)
Theorem clean_input_ok_invariants (instance : ProductVariant)
    (cleaned_input : CleanedInput AttributeValueInput)
    (cleaned : CleanedInput (Attribute * AttrValuesInput)) :
  clean_input' instance cleaned_input = ok cleaned ->
  (forall w, weight cleaned = Some w -> (0 <= value w)%Q)
  /\ (forall n, quantity_limit_per_customer cleaned = Some n -> 1 <= n)
  /\ NoDup (map warehouse (default [] (stocks cleaned)))
  /\ (forall a,
         a ∈ default [] (attributes cleaned_input) ->
         exists attr,
           attr ∈ variant_attributes
                    (product_type (parent instance cleaned_input))
           /\ attribute_id a = to_global_id "Attribute" (attribute_pk attr))
  /\ weight cleaned = weight cleaned_input
  /\ quantity_limit_per_customer cleaned
     = quantity_limit_per_customer cleaned_input
  /\ stocks cleaned = stocks cleaned_input
  /\ input_product cleaned = input_product cleaned_input
  /\ preorder cleaned = preorder cleaned_input.
Proof.
  intros Hok.
  apply clean_input_ok in Hok
    as ((Hweight & Hlimit & Hstocks) & Hempty & pairs & cleaned_sku & _ & _ & ->).
  simpl. repeat split.
  - intros w Hw. revert Hweight. unfold check_weight. rewrite Hw.
    by destruct (Qlt_le_dec (value w) 0).
  - intros n Hn. revert Hlimit. unfold check_quantity_limit_per_customer.
    rewrite Hn. destruct (Z.ltb_spec n 1); [done|]. intros _. lia.
  - revert Hstocks. unfold check_stocks, check_for_duplicates_in_stocks.
    destruct (stocks cleaned_input) as [[|stock l]|]; simpl;
      [intros _; constructor| |intros _; constructor].
    case_decide as Hdup; [done|]. intros _.
    apply get_duplicated_values_empty.
    by destruct (decide (get_duplicated_values
                           (map warehouse (stock :: l)) = ∅)).
  - intros a Ha.
    destruct (decide (attribute_id a
                        ∈ map (to_global_id "Attribute")
                            (map attribute_pk
                               (variant_attributes
                                  (product_type
                                     (parent instance cleaned_input))))))
      as [Hin|Hnot].
    + apply list_elem_of_fmap in Hin as (key & -> & Hkey).
      apply list_elem_of_fmap in Hkey as (attr & -> & Hattr). eauto.
    + assert (attribute_id a
                ∈ invalid_attributes to_global_id
                    (product_type (parent instance cleaned_input))
                    (attributes cleaned_input)) as Hbad.
      { apply elem_of_invalid_attributes. split; [|done].
        by apply (list_elem_of_fmap_2 attribute_id). }
      rewrite Hempty in Hbad. by apply not_elem_of_empty in Hbad.
Qed.

(** X8.  In a cleaned input the SKU is the one that [clean_variant_sku]
    returned and a missing "sku" key stays missing.  A preorder block with
    at least one key sets [is_preorder] and copies the threshold and the end
    date, a missing key as [None]; without a block, or with a block without
    keys, the three entries are those of the input. *)
Theorem clean_input_ok_derived (instance : ProductVariant)
    (cleaned_input : CleanedInput AttributeValueInput)
    (cleaned : CleanedInput (Attribute * AttrValuesInput)) :
  clean_input' instance cleaned_input = ok cleaned ->
  (sku cleaned_input = None -> sku cleaned = None)
  /\ (forall s,
         sku cleaned_input = Some s ->
         exists s', clean_variant_sku s = ok s' /\ sku cleaned = Some s')
  /\ (forall settings,
         preorder cleaned_input = Some settings ->
         is_Some (global_threshold settings) \/ is_Some (end_date settings) ->
         is_preorder cleaned = Some true
         /\ preorder_global_threshold cleaned
            = default None (global_threshold settings)
         /\ preorder_end_date cleaned = default None (end_date settings))
  /\ (preorder cleaned_input = None
      \/ preorder cleaned_input
         = Some {| global_threshold := None; end_date := None |} ->
      is_preorder cleaned = is_preorder cleaned_input
      /\ preorder_global_threshold cleaned
         = preorder_global_threshold cleaned_input
      /\ preorder_end_date cleaned = preorder_end_date cleaned_input).
Proof.
  intros Hok.
  apply clean_input_ok in Hok
    as (_ & _ & pairs & cleaned_sku & _ & Hsku & ->).
  simpl. split; [|split; [|split]].
  - intros Hnone. revert Hsku. rewrite Hnone. by intros [= <-].
  - intros s Hs. revert Hsku. rewrite Hs. simpl.
    destruct (clean_variant_sku s) as [|s']; [done|]. intros [= <-]. eauto.
  - intros settings -> Hkey. simpl.
    destruct settings as [[threshold|] [date|]]; simpl; try done.
    by destruct Hkey as [[]|[]].
  - by intros [-> | ->].
Qed.

Lemma invalid_attributes_none product_type
    (attributes : option (list AttributeValueInput)) :
  list_truthy attributes = false ->
  invalid_attributes to_global_id product_type attributes = ∅.
Proof.
  intros Hnone. apply set_eq. intros x. rewrite elem_of_invalid_attributes.
  split; [|by intros ?%not_elem_of_empty]. intros [Hx _].
  destruct attributes as [[|? ?]|]; simpl in *; try done;
    by apply not_elem_of_nil in Hx.
Qed.

(** X6.  For a product type with variants and a non-empty attribute list,
    past the earlier checks.  A validation error of the attribute cleaner
    that holds one message, or a list of errors, is raised again under
    "attributes"; one that holds a dictionary of errors makes line 245 fail
    with an [AttributeError], as such an error has no [error_list]; any
    exception that is not a validation error passes through as it is.  When
    the cleaner returns pairs whose signature is one of a variant of the
    parent product, the error of code DUPLICATED_INPUT_ITEM that names the
    global ids of the pairs is raised under "attributes"; otherwise nothing
    but the SKU cleaner can still fail, and the cleaned input holds exactly
    the pairs of the cleaner. *)
Theorem clean_input_attributes_phase (instance : ProductVariant)
    (cleaned_input : CleanedInput AttributeValueInput) :
  let type := product_type (parent instance cleaned_input) in
  let used := used_of (parent instance cleaned_input) in
  field_checks_pass set_order cleaned_input ->
  invalid_attributes to_global_id type (attributes cleaned_input) = ∅ ->
  has_variants type = true ->
  list_truthy (attributes cleaned_input) = true ->
  (forall message code params,
      clean_attributes cleaner (default [] (attributes cleaned_input)) type
      = raise (VError message code params) ->
      clean_input' instance cleaned_input
      = raise (VErrorDict [("attributes", VError message code params)]))
  /\ (forall errors,
         clean_attributes cleaner (default [] (attributes cleaned_input)) type
         = raise (VErrorList errors) ->
         clean_input' instance cleaned_input
         = raise (VErrorDict [("attributes", VErrorList errors)]))
  /\ (forall fields,
         clean_attributes cleaner (default [] (attributes cleaned_input)) type
         = raise (VErrorDict fields) ->
         clean_input' instance cleaned_input
         = inl (AttributeError
                  "'ValidationError' object has no attribute 'error_list'"))
  /\ (forall exc,
         (forall inner, exc <> Invalid inner) ->
         clean_attributes cleaner (default [] (attributes cleaned_input)) type
         = inl exc ->
         clean_input' instance cleaned_input = inl exc)
  /\ forall pairs,
       clean_attributes cleaner (default [] (attributes cleaned_input)) type
       = ok pairs ->
       (attribute_values slugify pairs ∈ used ->
        clean_input' instance cleaned_input
        = raise (VErrorDict
                   [("attributes",
                     VError "Duplicated attribute values for product variant."
                       DUPLICATED_INPUT_ITEM
                       (Some (list_to_set (ids pairs))))]))
       /\ (attribute_values slugify pairs ∉ used ->
           (forall exc,
               clean_input' instance cleaned_input = inl exc ->
               clean_variant_sku (default None (sku cleaned_input))
               = inl exc)
           /\ forall cleaned,
                clean_input' instance cleaned_input = ok cleaned ->
                attributes cleaned = Some pairs).
Proof.
  cbn zeta. intros Hpass Hempty Hvariants Hsome.
  destruct (clean_input_valid slugify set_order to_global_id cleaner used_of
              clean_variant_sku instance cleaned_input Hpass Hempty)
    as (k & Heq & Hk).
  assert (forall cleaned,
             clean_input' instance cleaned_input = ok cleaned ->
             clean_variant_attributes slugify cleaner instance
               (product_type (parent instance cleaned_input))
               (used_of (parent instance cleaned_input))
               (attributes cleaned_input) = ok (attributes cleaned))
    as Hattributes.
  { intros cleaned Hok.
    by apply clean_input_ok in Hok as (_ & _ & ? & ? & -> & _ & ->). }
  revert Heq Hattributes. unfold clean_variant_attributes.
  rewrite Hvariants, Hsome. intros Heq Hattributes.
  split; [|split; [|split; [|split]]].
  - intros message code params Hraise. by rewrite Heq, Hraise.
  - intros errors Hraise. by rewrite Heq, Hraise.
  - intros fields Hraise. by rewrite Heq, Hraise.
  - intros exc Hother Hraise. rewrite Heq, Hraise.
    destruct exc as [inner| |]; [by destruct (Hother inner)|done|done].
  - intros pairs Hpairs. rewrite Hpairs in *. simpl in *. split.
    + intros Hin.
      rewrite Heq, validate_raises, duplicated_error_eq by done. done.
    + intros Hnot. rewrite validate_accepts_fst in * by done. simpl in *.
      split.
      * intros exc Hraise. rewrite Heq in Hraise. by apply Hk in Hraise.
      * intros cleaned Hok. apply Hattributes in Hok. by injection Hok as <-.
Qed.

(** X7.  Which product is looked at.  For an instance with a key the
    product type and the sibling variants are those of the product of the
    instance: the product under "product" plays no part beyond being kept in
    the result; and such an instance is never refused for attributes that
    are missing.  For an instance without a key the product of the instance
    plays no part. *)
Theorem clean_input_product_of (instance : ProductVariant)
    (cleaned_input : CleanedInput AttributeValueInput) :
  (pk_truthy (pk instance) = true ->
   (forall other,
       clean_input' instance (with_input_product other cleaned_input)
       = match clean_input' instance cleaned_input with
         | inl exc => inl exc
         | inr cleaned => inr (with_input_product other cleaned)
         end)
   /\ (field_checks_pass set_order cleaned_input ->
       list_truthy (attributes cleaned_input) = false ->
       forall exc,
         clean_input' instance cleaned_input = inl exc ->
         clean_variant_sku (default None (sku cleaned_input)) = inl exc))
  /\ (pk_truthy (pk instance) = false ->
      forall other,
        clean_input' (with_product other instance) cleaned_input
        = clean_input' instance cleaned_input).
Proof.
  split; [intros Hkey; split|].
  - intros other. unfold clean_input. simpl. rewrite Hkey.
    destruct (check_weight _); [done|].
    destruct (check_quantity_limit_per_customer _); [done|].
    destruct (check_stocks _ _); [done|]. simpl.
    destruct (check_attributes_ids _ _ _); [done|]. simpl.
    destruct (clean_variant_attributes _ _ _ _ _ _); [done|]. simpl.
    by destruct (clean_sku _ _).
  - intros Hpass Hnone exc Hraise.
    destruct (clean_input_valid slugify set_order to_global_id cleaner used_of
                clean_variant_sku instance cleaned_input Hpass
                (invalid_attributes_none _ _ Hnone))
      as (k & Heq & Hk).
    rewrite Heq in Hraise. apply (Hk (untouched (attributes cleaned_input))).
    revert Hraise. unfold clean_variant_attributes.
    rewrite Hnone, Hkey. by destruct (has_variants _).
  - intros Hnew other. unfold clean_input, with_product. simpl.
    by rewrite Hnew.
Qed.

End CleanInputMore.

(** With everything wrong at once the weight is reported; with the weight
    put right, the quantity limit; with both put right, the warehouse that
    is named twice. *)
Lemma clean_input_first_failure_witness :
  Example.clean Example.empty_store (Example.fresh Example.voucher)
    (More.all_wrong (Some {| value := -1 |}) (Some 0))
  = raise (VErrorDict
             [("weight",
               VError "Product variant can't have negative weight."
                 INVALID None)])
  /\ Example.clean Example.empty_store (Example.fresh Example.voucher)
       (More.all_wrong (Some {| value := 0 |}) (Some 0))
     = raise (VErrorDict
                [("quantity_limit_per_customer",
                  VError
                    "Product variant can't have quantity_limit_per_customer lower than 1."
                    INVALID None)])
  /\ Example.clean Example.empty_store (Example.fresh Example.voucher)
       (More.all_wrong (Some {| value := 0 |}) (Some 1))
     = raise (VErrorDict
                [("stocks", VError "Duplicated warehouse ID: W1" UNIQUE None)]).
Proof.
  split; [|split].
  - refine (proj1 (clean_input_first_failure Reference.slugify
                     Reference.set_order Reference.to_global_id
                     Reference.clean_attribute_inputs
                     (Reference.get_used_variants_attribute_values
                        Example.empty_store)
                     Reference.clean_variant_sku
                     (Example.fresh Example.voucher)
                     (More.all_wrong (Some {| value := -1 |}) (Some 0)))
                  {| value := -1 |} eq_refl _).
    reflexivity.
  - refine (proj1 (proj2 (clean_input_first_failure Reference.slugify
                     Reference.set_order Reference.to_global_id
                     Reference.clean_attribute_inputs
                     (Reference.get_used_variants_attribute_values
                        Example.empty_store)
                     Reference.clean_variant_sku
                     (Example.fresh Example.voucher)
                     (More.all_wrong (Some {| value := 0 |}) (Some 0))))
                  0 _ eq_refl _).
    + intros w [= <-]. by vm_compute.
    + lia.
  - refine (proj2 (proj2 (clean_input_first_failure Reference.slugify
                     Reference.set_order Reference.to_global_id
                     Reference.clean_attribute_inputs
                     (Reference.get_used_variants_attribute_values
                        Example.empty_store)
                     Reference.clean_variant_sku
                     (Example.fresh Example.voucher)
                     (More.all_wrong (Some {| value := 0 |}) (Some 1))))
                  Example.twice _ _ eq_refl _).
    + intros w [= <-]. by vm_compute.
    + intros n [= <-]. lia.
    + apply (bool_decide_unpack _). by vm_compute.
Defined.

(** A creation for the shirt that is accepted. *)
Lemma clean_input_ok_invariants_witness :
  exists cleaned,
    Example.clean Example.shop (Example.fresh Example.shirt) More.preordered
    = ok cleaned
    /\ NoDup (map warehouse (default [] (stocks cleaned)))
    /\ stocks cleaned = stocks More.preordered.
Proof.
  destruct (Example.clean Example.shop (Example.fresh Example.shirt)
              More.preordered) as [exc|cleaned] eqn:Hclean;
    [by vm_compute in Hclean|].
  exists cleaned. split; [done|].
  pose proof (clean_input_ok_invariants Reference.slugify Reference.set_order
                Reference.to_global_id Reference.clean_attribute_inputs
                (Reference.get_used_variants_attribute_values Example.shop)
                Reference.clean_variant_sku _ _ _ Hclean)
    as (_ & _ & Hstocks & _ & _ & _ & Hsame & _).
  by split.
Defined.

(** The preorder block of that creation has a threshold and no end date. *)
Lemma clean_input_ok_derived_witness :
  exists cleaned,
    Example.clean Example.shop (Example.fresh Example.shirt) More.preordered
    = ok cleaned
    /\ is_preorder cleaned = Some true
    /\ preorder_global_threshold cleaned = Some 10
    /\ preorder_end_date cleaned = None.
Proof.
  destruct (Example.clean Example.shop (Example.fresh Example.shirt)
              More.preordered) as [exc|cleaned] eqn:Hclean;
    [by vm_compute in Hclean|].
  exists cleaned. split; [done|].
  pose proof (clean_input_ok_derived Reference.slugify Reference.set_order
                Reference.to_global_id Reference.clean_attribute_inputs
                (Reference.get_used_variants_attribute_values Example.shop)
                Reference.clean_variant_sku _ _ _ Hclean)
    as (_ & _ & Hpreorder & _).
  apply (Hpreorder {| global_threshold := Some (Some 10); end_date := None |});
    [reflexivity|]. left. by eexists.
Defined.

(** A second variant of size "xl" for the shirt is a duplicate.  With a
    cleaner that raises a list of errors the list is raised under
    "attributes"; with one that raises a dictionary of errors the outcome is
    the [AttributeError]. *)
Lemma clean_input_attributes_phase_witness :
  Example.clean More.stocked (Example.fresh Example.shirt_with_default)
    (Example.input Example.shirt_with_default None None
       (Some [Example.size_input]))
  = raise (VErrorDict
             [("attributes",
               VError "Duplicated attribute values for product variant."
                      DUPLICATED_INPUT_ITEM (Some {[ "Attribute:2" ]}))])
  /\ clean_input Reference.slugify Reference.set_order Reference.to_global_id
       (fun _ _ =>
          raise (VErrorList
                   [VError "Attribute expects a value but none were given."
                      REQUIRED None]))
       (Reference.get_used_variants_attribute_values More.stocked)
       Reference.clean_variant_sku
       (Example.fresh Example.shirt_with_default)
       (Example.input Example.shirt_with_default None None
          (Some [Example.size_input]))
     = raise (VErrorDict
                [("attributes",
                  VErrorList
                    [VError "Attribute expects a value but none were given."
                       REQUIRED None])])
  /\ clean_input Reference.slugify Reference.set_order Reference.to_global_id
       (fun _ _ =>
          raise (VErrorDict
                   [("values",
                     VError "Attribute expects a value but none were given."
                       REQUIRED None)]))
       (Reference.get_used_variants_attribute_values More.stocked)
       Reference.clean_variant_sku
       (Example.fresh Example.shirt_with_default)
       (Example.input Example.shirt_with_default None None
          (Some [Example.size_input]))
     = inl (AttributeError
              "'ValidationError' object has no attribute 'error_list'").
Proof.
  split; [|split].
  - refine (proj1 (proj2 (proj2 (proj2 (proj2
              (clean_input_attributes_phase Reference.slugify
                 Reference.set_order Reference.to_global_id
                 Reference.clean_attribute_inputs
                 (Reference.get_used_variants_attribute_values More.stocked)
                 Reference.clean_variant_sku
                 (Example.fresh Example.shirt_with_default)
                 (Example.input Example.shirt_with_default None None
                    (Some [Example.size_input])) _ _ eq_refl eq_refl))))
              [(Example.size,
                {| global_id := Example.size_id; values := ["xl"];
                   file_url := None |})] _) _).
    + by vm_compute.
    + by vm_compute.
    + by vm_compute.
    + apply (bool_decide_unpack _). by vm_compute.
  - refine (proj1 (proj2
              (clean_input_attributes_phase Reference.slugify
                 Reference.set_order Reference.to_global_id _
                 (Reference.get_used_variants_attribute_values More.stocked)
                 Reference.clean_variant_sku
                 (Example.fresh Example.shirt_with_default)
                 (Example.input Example.shirt_with_default None None
                    (Some [Example.size_input])) _ _ eq_refl eq_refl))
              _ eq_refl).
    + by vm_compute.
    + by vm_compute.
  - refine (proj1 (proj2 (proj2
              (clean_input_attributes_phase Reference.slugify
                 Reference.set_order Reference.to_global_id _
                 (Reference.get_used_variants_attribute_values More.stocked)
                 Reference.clean_variant_sku
                 (Example.fresh Example.shirt_with_default)
                 (Example.input Example.shirt_with_default None None
                    (Some [Example.size_input])) _ _ eq_refl eq_refl)))
              _ eq_refl).
    + by vm_compute.
    + by vm_compute.
Defined.

(** An update of the saved variant without attributes is not refused,
    though the shirt has a required attribute. *)
Lemma clean_input_product_of_witness :
  exists cleaned,
    Example.clean More.stocked More.saved
      (Example.input Example.voucher None None None)
    = ok cleaned.
Proof.
  destruct (Example.clean More.stocked More.saved
              (Example.input Example.voucher None None None))
    as [exc|cleaned] eqn:Hclean; [|by exists cleaned].
  apply (proj2 (proj1 (clean_input_product_of Reference.slugify
                  Reference.set_order Reference.to_global_id
                  Reference.clean_attribute_inputs
                  (Reference.get_used_variants_attribute_values More.stocked)
                  Reference.clean_variant_sku More.saved
                  (Example.input Example.voucher None None None))
                eq_refl)) in Hclean.
  - by vm_compute in Hclean.
  - by vm_compute.
  - reflexivity.
Defined.

(** ** More on saving *)

Lemma bind_run {A B} (m : M A) (k : A -> M B) w r w' :
  (m ≫= k) w = (r, w') ->
  (exists exc, m w = (inl exc, w') /\ r = inl exc)
  \/ exists a w1, m w = (inr a, w1) /\ k a w1 = (r, w').
Proof.
  unfold mbind, M_bind. destruct (m w) as [[exc|a] w1].
  - intros [= <- <-]. left. eauto.
  - intros Hk. right. eauto.
Qed.

Section SaveMore.

Context `{C : Collaborators}.

(** The events and the price tasks, which the database operations do not
    touch. *)
Local Abbreviation log := (fun w : World => (events w, price_tasks w)).

Lemma query_log {A} (op : Db A) : preserves log (query op).
Proof. intros w. unfold query. by destruct (op (store w)). Qed.

Lemma set_default_variant_log instance :
  preserves log (set_default_variant instance).
Proof.
  unfold set_default_variant. destruct (default_variant _); [done|].
  apply preserves_bind; [apply query_log|done].
Qed.

Lemma create_variant_stocks_log variant stocks :
  preserves log (create_variant_stocks variant stocks).
Proof.
  unfold create_variant_stocks.
  apply preserves_bind; [apply query_log|]. intros. apply query_log.
Qed.

(** Every run of the block from line 331 on: the price task of the product
    is queued, and when the run raises no event has been handed over. *)
Lemma after_default_variant_run new_variant cleaned_input instance w r w' :
  after_default_variant new_variant cleaned_input instance w = (r, w') ->
  price_tasks w' = price_tasks w ++ [product_pk (product instance)]
  /\ (forall exc, r = inl exc -> events w' = events w).
Proof.
  unfold after_default_variant. intros Hrun.
  apply bind_run in Hrun as [(exc & [=] & _)|([] & w1 & [= <-] & Hrun)].
  apply bind_run in Hrun as [(exc & H2 & ->)|([] & w2 & H2 & Hrun)];
    apply (preserves_run log) in H2;
    try (apply preserves_if; [apply create_variant_stocks_log|done]);
    injection H2 as He2 Hp2; simpl in *; [by rewrite He2, Hp2|].
  apply bind_run in Hrun as [(exc & H3 & ->)|([] & w3 & H3 & Hrun)];
    apply (preserves_run log) in H3;
    try (apply preserves_if; [apply query_log|done]);
    injection H3 as He3 Hp3; [by rewrite He3, Hp3, He2, Hp2|].
  apply bind_run in Hrun as [(exc & H4 & ->)|(named & w4 & H4 & Hrun)];
    apply (preserves_run log) in H4;
    try (apply preserves_if;
         [apply preserves_bind; [apply query_log|done]|done]);
    injection H4 as He4 Hp4; [by rewrite He4, Hp4, He3, Hp3, He2, Hp2|].
  apply bind_run in Hrun as [(exc & H5 & ->)|([] & w5 & H5 & Hrun)];
    apply (preserves_run log) in H5; try apply query_log;
    injection H5 as He5 Hp5;
    [by rewrite He5, Hp5, He4, Hp4, He3, Hp3, He2, Hp2|].
  injection Hrun as <- <-. simpl.
  split; [by rewrite Hp5, Hp4, Hp3, Hp2|done].
Qed.

(** Every run of the whole block. *)
Lemma save_block_run new_variant instance cleaned_input w r w' :
  save_block new_variant instance cleaned_input w = (r, w') ->
  (forall exc, r = inl exc -> events w' = events w)
  /\ (price_tasks w' = price_tasks w ++ [product_pk (product instance)]
      \/ (price_tasks w' = price_tasks w /\ exists exc, r = inl exc)).
Proof.
  rewrite save_block_eq. intros Hrun.
  apply bind_run in Hrun as [(exc & H1 & ->)|(key & w1 & H1 & Hrun)];
    apply (preserves_run log) in H1; try apply query_log;
    injection H1 as He1 Hp1; [split; [done|right; eauto]|].
  apply bind_run in Hrun as [(exc & H2 & ->)|(pointed & w2 & H2 & Hrun)].
  { apply (preserves_run log) in H2; [|apply set_default_variant_log].
    injection H2 as He2 Hp2. rewrite He2, Hp2, He1, Hp1.
    split; [done|right; eauto]. }
  pose proof (preserves_run log _ _ _ _ (set_default_variant_log _) H2) as Hlog.
  injection Hlog as He2 Hp2.
  apply set_default_variant_ok in H2 as (_ & _ & Hproduct & _).
  apply after_default_variant_run in Hrun as [Htask Hevents].
  simpl in *. rewrite Hproduct, Hp2, Hp1 in Htask. split; [|by left].
  intros exc ->. by rewrite (Hevents exc), He2, He1.
Qed.

(** X9.  [save] queues the recalculation of the discounted price for the
    product of the instance exactly once when it succeeds and at most once
    when it raises; the queue is not otherwise touched. *)
Theorem save_price_task (instance : ProductVariant)
    (cleaned_input : CleanedInput (Attribute * AttrValuesInput))
    (w : World) (result : Exception + ProductVariant) (w' : World) :
  save instance cleaned_input w = (result, w') ->
  match result with
  | inr _ =>
      price_tasks w' = price_tasks w ++ [product_pk (product instance)]
  | inl _ =>
      price_tasks w' = price_tasks w
      \/ price_tasks w' = price_tasks w ++ [product_pk (product instance)]
  end.
Proof.
  unfold save, traced_atomic_transaction.
  destruct (save_block _ _ _ _) as [[exc|saved] w''] eqn:Hblock;
    intros [= <- <-]; apply save_block_run in Hblock as [_ Htask]; simpl.
  - destruct Htask as [?|[? _]]; [by right|by left].
  - by destruct Htask as [?|[_ [? [=]]]].
Qed.

(** X10.  A [save] that raises hands no event to [call_event]: the event
    is the last step, after everything that can fail. *)
Theorem save_failure_no_event (instance : ProductVariant)
    (cleaned_input : CleanedInput (Attribute * AttrValuesInput))
    (w : World) (exc : Exception) (w' : World) :
  save instance cleaned_input w = (inl exc, w') ->
  events w' = events w.
Proof.
  unfold save, traced_atomic_transaction.
  destruct (save_block _ _ _ _) as [[e|saved] w''] eqn:Hblock; [|done].
  intros [= <- <-]. apply save_block_run in Hblock as [Hevents _]. simpl.
  by apply (Hevents e).
Qed.

End SaveMore.

(** The first save of the example queues the task of the shirt. *)
Lemma save_price_task_witness :
  price_tasks (@save (Reference.collaborators 7) (Example.fresh Example.shirt)
                 (Example.cleaned Example.small)
                 (Example.world Example.shop)).2
  = [10].
Proof.
  destruct (@save (Reference.collaborators 7) (Example.fresh Example.shirt)
              (Example.cleaned Example.small) (Example.world Example.shop))
    as [result w'] eqn:Hrun.
  pose proof (@save_price_task (Reference.collaborators 7) _ _ _ _ _ Hrun)
    as Htask.
  vm_compute in Hrun. injection Hrun as <- _. exact Htask.
Defined.

(** The save of the example that is refused at the attribute rows. *)
Lemma save_failure_no_event_witness :
  events (@save (Reference.collaborators 7) (Example.fresh Example.shirt)
            (Example.cleaned Example.valueless)
            (Example.world Example.shop)).2
  = [].
Proof.
  refine (@save_failure_no_event (Reference.collaborators 7)
            (Example.fresh Example.shirt)
            (Example.cleaned Example.valueless)
            (Example.world Example.shop)
            (Invalid (VError "Attribute expects a value but none were given."
                             REQUIRED None))
            _ _).
  by vm_compute.
Defined.

(** X11.  [save] runs only the parts its input asks for.  Without stocks
    it neither resolves warehouses nor creates stock rows; without
    attributes it does not save attribute values; for an instance that has
    a name it does not generate one.  The outcome then is the same whatever
    those collaborators would do. *)
Theorem save_skips_absent_parts
    (model_save' : ProductVariant -> Db Z) (time : Z)
    (get_nodes_or_error' : list string -> Db (list string))
    (create_stocks' :
       ProductVariant -> list StockInput -> list string -> Db unit)
    (assign' : ProductVariant -> T_INPUT_MAP -> Db unit)
    (generate' : ProductVariant -> option string -> Db (option string))
    (search' : Product -> Db unit)
    (instance : ProductVariant)
    (cleaned_input : CleanedInput (Attribute * AttrValuesInput))
    (w : World) :
  let outcome :=
    @save (Build_Collaborators model_save' time get_nodes_or_error'
             create_stocks' assign' generate' search')
      instance cleaned_input w in
  (list_truthy (stocks cleaned_input) = false ->
   forall other_nodes other_stocks,
     @save (Build_Collaborators model_save' time other_nodes other_stocks
              assign' generate' search') instance cleaned_input w
     = outcome)
  /\ (list_truthy (attributes cleaned_input) = false ->
      forall other_assign,
        @save (Build_Collaborators model_save' time get_nodes_or_error'
                 create_stocks' other_assign generate' search')
          instance cleaned_input w
        = outcome)
  /\ (str_truthy (name instance) = true ->
      forall other_generate,
        @save (Build_Collaborators model_save' time get_nodes_or_error'
                 create_stocks' assign' other_generate search')
          instance cleaned_input w
        = outcome).
Proof.
  cbn zeta. split; [|split].
  - intros Hnone other_nodes other_stocks.
    unfold save, save_block. by rewrite Hnone.
  - intros Hnone other_assign. unfold save, save_block. by rewrite Hnone.
  - intros Hnamed other_generate. unfold save, traced_atomic_transaction.
    match goal with
    | |- match ?a with _ => _ end = match ?b with _ => _ end =>
        assert (a = b) as ->; [|done]
    end.
    rewrite !save_block_eq. unfold mbind, M_bind. cbn [model_save].
    destruct (query (model_save' instance) w) as [[exc|key] w1]; [done|].
    unfold set_default_variant. cbn [product pk name].
    destruct (default_variant (product instance)) as [v|].
    + unfold mret, M_ret, after_default_variant. cbn [name].
      by rewrite Hnamed.
    + unfold mbind, M_bind.
      destruct (query _ w1) as [[exc|[]] w2]; [done|].
      unfold mret, M_ret, after_default_variant. cbn [name].
      by rewrite Hnamed.
Qed.

(** An update of the saved variant, which has a name, with a bare input:
    stocks, attribute values and name generation may all be out of order. *)
Lemma save_skips_absent_parts_witness :
  @save (Build_Collaborators Reference.model_save 7
           (fun _ => More.broken) (fun _ _ _ => More.broken)
           (fun _ _ => More.broken) (fun _ _ => More.broken)
           (Reference.update_product_search_vector 7))
    More.saved More.bare (Example.world More.stocked)
  = @save (Reference.collaborators 7) More.saved More.bare
      (Example.world More.stocked).
Proof.
  unfold Reference.collaborators.
  pose proof (save_skips_absent_parts Reference.model_save 7
                Reference.get_nodes_or_error Reference.create_stocks
                (fun instance => Reference.assign (default 0 (pk instance)))
                Reference.generate_and_set_variant_name
                (Reference.update_product_search_vector 7)
                More.saved More.bare (Example.world More.stocked))
    as (Hstocks & _ & _).
  rewrite <- (Hstocks eq_refl (fun _ => More.broken)
                (fun _ _ _ => More.broken)).
  pose proof (save_skips_absent_parts Reference.model_save 7
                (fun _ => More.broken) (fun _ _ _ => More.broken)
                (fun instance => Reference.assign (default 0 (pk instance)))
                Reference.generate_and_set_variant_name
                (Reference.update_product_search_vector 7)
                More.saved More.bare (Example.world More.stocked))
    as (_ & Hassign & _).
  rewrite <- (Hassign eq_refl (fun _ _ => More.broken)).
  pose proof (save_skips_absent_parts Reference.model_save 7
                (fun _ => More.broken) (fun _ _ _ => More.broken)
                (fun _ _ => More.broken)
                Reference.generate_and_set_variant_name
                (Reference.update_product_search_vector 7)
                More.saved More.bare (Example.world More.stocked))
    as (_ & _ & Hname).
  by rewrite <- (Hname eq_refl (fun _ _ => More.broken)).
Defined.

(** X12.  For a product type without variants a cleaned input holds no
    attribute pairs, so saving it never saves attribute values: the outcome
    of [save] is the same whatever that collaborator would do.  In general a
    cleaned input holds pairs only for a product type with variants, and
    then they are what the attribute cleaner returned, with a signature that
    no variant of the parent product has. *)
Theorem cleaned_attributes_reach_save
    (slugify : string -> string) (set_order : gset string -> list string)
    (to_global_id : string -> Z -> string)
    (cleaner : list AttributeValueInput -> list Attribute -> Result T_INPUT_MAP)
    (used_of : Product -> list (gmap string (list string)))
    (clean_variant_sku : option string -> Result (option string))
    (instance : ProductVariant)
    (cleaned_input : CleanedInput AttributeValueInput)
    (cleaned : CleanedInput (Attribute * AttrValuesInput)) :
  clean_input slugify set_order to_global_id cleaner used_of clean_variant_sku
    instance cleaned_input = ok cleaned ->
  let type := product_type (parent instance cleaned_input) in
  (list_truthy (attributes cleaned) = true ->
   has_variants type = true
   /\ exists pairs,
        attributes cleaned = Some pairs
        /\ clean_attributes cleaner (default [] (attributes cleaned_input))
             type = ok pairs
        /\ attribute_values slugify pairs
           ∉ used_of (parent instance cleaned_input))
  /\ (has_variants type = false ->
      list_truthy (attributes cleaned) = false
      /\ forall model_save' time get_nodes_or_error' create_stocks' assign'
           other_assign generate' search' saved w,
           @save (Build_Collaborators model_save' time get_nodes_or_error'
                    create_stocks' other_assign generate' search')
             saved cleaned w
           = @save (Build_Collaborators model_save' time get_nodes_or_error'
                      create_stocks' assign' generate' search')
               saved cleaned w).
Proof.
  intros Hok. cbn zeta.
  apply clean_input_ok in Hok as (_ & _ & pairs & cleaned_sku & Hpairs & _ & ->).
  simpl.
  assert (list_truthy pairs = true ->
          has_variants (product_type (parent instance cleaned_input)) = true
          /\ exists found,
               pairs = Some found
               /\ clean_attributes cleaner
                    (default [] (attributes cleaned_input))
                    (product_type (parent instance cleaned_input)) = ok found
               /\ attribute_values slugify found
                  ∉ used_of (parent instance cleaned_input)) as Hfull.
  { revert Hpairs. unfold clean_variant_attributes.
    destruct (has_variants _).
    - destruct (list_truthy (attributes cleaned_input)).
      + destruct (clean_attributes _ _ _) as [[[| |]| |]|found]; [done..|].
        simpl. unfold validate_duplicated_attribute_values.
        case_decide as Hin; [done|]. simpl. intros [= <-] _.
        split; [done|]. by exists found.
      + destruct (_ && _); [done|]. simpl. intros [= <-].
        by destruct (attributes cleaned_input).
    - destruct (list_truthy (attributes cleaned_input)); [done|].
      intros [= <-]. by destruct (attributes cleaned_input). }
  split; [done|]. intros Hplain.
  assert (list_truthy pairs = false) as Hnone.
  { destruct (list_truthy pairs) eqn:Htruthy; [|done].
    destruct (Hfull eq_refl) as [Hvariants _]. congruence. }
  split; [done|]. intros.
  pose proof (save_skips_absent_parts model_save' time get_nodes_or_error'
                create_stocks' assign' generate' search' saved
                {| weight := weight cleaned_input;
                   quantity_limit_per_customer :=
                     quantity_limit_per_customer cleaned_input;
                   stocks := stocks cleaned_input;
                   input_product := input_product cleaned_input;
                   attributes := pairs;
                   sku := cleaned_sku;
                   preorder := preorder cleaned_input;
                   is_preorder :=
                     if preorder_truthy (preorder cleaned_input)
                     then Some true else is_preorder cleaned_input;
                   preorder_global_threshold :=
                     if preorder_truthy (preorder cleaned_input)
                     then get global_threshold (preorder cleaned_input)
                     else preorder_global_threshold cleaned_input;
                   preorder_end_date :=
                     if preorder_truthy (preorder cleaned_input)
                     then get end_date (preorder cleaned_input)
                     else preorder_end_date cleaned_input |} w)
    as (_ & Hassign & _).
  by apply Hassign.
Qed.

(** A creation for the voucher, whose type has no variants. *)
Lemma cleaned_attributes_reach_save_witness :
  exists cleaned,
    Example.clean Example.empty_store (Example.fresh Example.voucher)
      (Example.input Example.voucher None None None) = ok cleaned
    /\ list_truthy (attributes cleaned) = false.
Proof.
  destruct (Example.clean Example.empty_store (Example.fresh Example.voucher)
              (Example.input Example.voucher None None None))
    as [exc|cleaned] eqn:Hclean; [by vm_compute in Hclean|].
  exists cleaned. split; [done|].
  pose proof (cleaned_attributes_reach_save Reference.slugify
                Reference.set_order Reference.to_global_id
                Reference.clean_attribute_inputs
                (Reference.get_used_variants_attribute_values
                   Example.empty_store)
                Reference.clean_variant_sku _ _ _ Hclean) as [_ Hplain].
  by apply Hplain.
Defined.

(** ** Finding the instance *)

(** X13.  [get_instance] chooses the queryset first.  With attributes
    that are not empty it reads [cls.Meta]: on a class without [Meta] the
    call fails with an [AttributeError] whatever the id and the SKU are.
    Without attributes it takes the default queryset and [cls.Meta] plays
    no part.  Given the queryset, it looks for the variant by id first: with
    an id the SKU plays no part.  Without an id (or with an empty one) it
    looks by SKU, and raises "not_found" under "sku", naming the SKU, when
    no variant has it.  It returns a blank instance exactly when neither an
    id nor a SKU is given; every other instance it returns is one the
    queryset answered with. *)
Theorem get_instance_resolution (cls_name : string)
    (prefetched : option QuerySet) (unfetched : QuerySet)
    (object_id object_sku : option string)
    (attributes : option (list AttributeValueInput)) :
  let found := get_instance cls_name prefetched unfetched object_id object_sku
                 attributes in
  (list_truthy attributes = true -> prefetched = None ->
   found = inl (AttributeError
                  ("type object '" ++ cls_name
                   ++ "' has no attribute 'Meta'")))
  /\ (list_truthy attributes = false ->
      forall other_name other,
        get_instance other_name other unfetched object_id object_sku
          attributes = found)
  /\ (str_truthy object_id = true ->
      forall other_sku,
        get_instance cls_name prefetched unfetched object_id other_sku
          attributes = found)
  /\ forall qs,
       (list_truthy attributes = true /\ prefetched = Some qs)
       \/ (list_truthy attributes = false /\ qs = unfetched) ->
       (found = ok Blank <->
        str_truthy object_id = false /\ str_truthy object_sku = false)
       /\ (forall s,
              str_truthy object_id = false -> object_sku = Some s ->
              s <> "" -> first_with_sku qs s = None ->
              found
              = raise (VErrorDict
                         [("sku",
                           VError ("Couldn't resolve to a node: " ++ s)
                             (OTHER_CODE "not_found") None)]))
       /\ (forall variant,
              found = ok (Existing variant) ->
              (str_truthy object_id = true
               /\ node_or_error qs (default "" object_id) = ok variant)
              \/ (str_truthy object_id = false /\ str_truthy object_sku = true
                  /\ first_with_sku qs (default "" object_sku)
                     = Some variant)).
Proof.
  cbn zeta. unfold get_instance, queryset, no_meta_error.
  split; [|split; [|split]].
  - by intros -> ->.
  - by intros ->.
  - intros Hid other_sku. destruct (list_truthy attributes);
      [destruct prefetched; [|done]|]; simpl; by rewrite Hid.
  - intros qs Hqs.
    assert ((if list_truthy attributes
             then match prefetched with
                  | Some qs => ok qs
                  | None =>
                      inl (AttributeError
                             ("type object '" ++ cls_name
                              ++ "' has no attribute 'Meta'"))
                  end
             else ok unfetched) = ok qs) as ->
      by (by destruct Hqs as [[-> ->]|[-> ->]]).
    simpl. split; [|split].
    + destruct (str_truthy object_id).
      * destruct (node_or_error _ _); split; try done; by intros [? ?].
      * destruct (str_truthy object_sku).
        -- destruct (first_with_sku _ _); split; try done; by intros [? ?].
        -- done.
    + intros s Hid -> Hs Hnone. rewrite Hid. simpl.
      destruct s; [done|]. simpl in *. by rewrite Hnone.
    + intros variant. destruct (str_truthy object_id).
      * destruct (node_or_error _ _) as [|v]; [done|].
        intros [= ->]. by left.
      * destruct (str_truthy object_sku); [|done].
        destruct (first_with_sku _ _) as [v|]; [|done].
        intros [= ->]. by right.
Qed.

(** By id, by an unknown SKU and by nothing, without attributes; and with
    attributes on the class as graphene leaves it. *)
Lemma get_instance_resolution_witness :
  get_instance "ProductVariantCreate" None More.one_variant
    (Some "UHJvZHVjdFZhcmlhbnQ6MQ==") (Some "SKU-9") None
  = ok (Existing More.saved)
  /\ get_instance "ProductVariantCreate" None More.one_variant
       (Some "") (Some "SKU-9") None
     = raise (VErrorDict
                [("sku", VError "Couldn't resolve to a node: SKU-9"
                                (OTHER_CODE "not_found") None)])
  /\ get_instance "ProductVariantCreate" None More.one_variant None None None
     = ok Blank
  /\ get_instance "ProductVariantCreate" None More.one_variant
       (Some "UHJvZHVjdFZhcmlhbnQ6MQ==") (Some "SKU-1")
       (Some [Example.size_input])
     = inl (AttributeError
              "type object 'ProductVariantCreate' has no attribute 'Meta'").
Proof.
  split; [|split; [|split]].
  - rewrite (proj1 (proj2 (proj2
               (get_instance_resolution "ProductVariantCreate" None
                  More.one_variant (Some "UHJvZHVjdFZhcmlhbnQ6MQ==")
                  (Some "SKU-1") None)))
               eq_refl (Some "SKU-9")).
    reflexivity.
  - refine (proj1 (proj2 (proj2 (proj2 (proj2
              (get_instance_resolution "ProductVariantCreate" None
                 More.one_variant (Some "") (Some "SKU-9") None)))
              More.one_variant (or_intror (conj eq_refl eq_refl))))
              "SKU-9" eq_refl eq_refl _ eq_refl).
    discriminate.
  - by apply (proj1 (proj2 (proj2 (proj2
                (get_instance_resolution "ProductVariantCreate" None
                   More.one_variant None None None)))
                More.one_variant (or_intror (conj eq_refl eq_refl)))).
  - exact (proj1 (get_instance_resolution "ProductVariantCreate" None
                    More.one_variant (Some "UHJvZHVjdFZhcmlhbnQ6MQ==")
                    (Some "SKU-1") (Some [Example.size_input]))
             eq_refl eq_refl).
Defined.

(** ** The name of the variant *)

Section SaveName.

Context `{C : Collaborators}.

Lemma after_default_variant_name new_variant cleaned_input instance w instance' w' :
  after_default_variant new_variant cleaned_input instance w
    = (inr instance', w') ->
  if str_truthy (name instance) then name instance' = name instance
  else exists s s',
      generate_and_set_variant_name instance
        (default None (sku cleaned_input)) s = (inr (name instance'), s').
Proof.
  unfold after_default_variant. intros Hrun.
  apply bind_ok in Hrun as ([] & w1 & _ & Hrun).
  apply bind_ok in Hrun as ([] & w2 & _ & Hrun).
  apply bind_ok in Hrun as ([] & w3 & _ & Hrun).
  apply bind_ok in Hrun as (named & w4 & Hname & Hrun).
  apply bind_ok in Hrun as ([] & w5 & _ & Hrun).
  apply bind_ok in Hrun as ([] & w6 & _ & [= <- _]).
  destruct (str_truthy (name instance)); simpl in Hname.
  - by injection Hname as <- _.
  - apply bind_ok in Hname as (name' & w3' & Hquery & [= <- _]).
    unfold query in Hquery.
    destruct (generate_and_set_variant_name _ _ _) as [r s'] eqn:Hgenerate.
    injection Hquery as -> _. simpl. eauto.
Qed.

(** X14.  [save] never replaces a name: an instance that has a name has
    the same name after a successful [save].  An instance without a name
    (or with an empty one) gets the name that
    [generate_and_set_variant_name] returned, called with the SKU of the
    input for the instance as saved. *)
Theorem save_keeps_name (instance : ProductVariant)
    (cleaned_input : CleanedInput (Attribute * AttrValuesInput))
    (w : World) (instance' : ProductVariant) (w' : World) :
  save instance cleaned_input w = (inr instance', w') ->
  (str_truthy (name instance) = true -> name instance' = name instance)
  /\ (str_truthy (name instance) = false ->
      exists saved s s',
        pk saved = pk instance' /\ name saved = name instance
        /\ generate_and_set_variant_name saved
             (default None (sku cleaned_input)) s
           = (inr (name instance'), s')).
Proof.
  intros Hrun. apply save_ok in Hrun. rewrite save_block_eq in Hrun.
  apply bind_ok in Hrun as (key & w1 & _ & Hrun).
  apply bind_ok in Hrun as (pointed & w2 & Hdefault & Hrun).
  apply set_default_variant_ok in Hdefault as (Hpk & Hname & _).
  pose proof (after_default_variant_name _ _ _ _ _ _ Hrun) as Hnamed.
  apply after_default_variant_ok in Hrun as (Hpk' & _).
  simpl in *. rewrite Hname in Hnamed. split.
  - intros Htruthy. by rewrite Htruthy in Hnamed.
  - intros Hfalsy. rewrite Hfalsy in Hnamed.
    destruct Hnamed as (s & s' & Hgenerate).
    exists pointed, s, s'. by rewrite Hpk', Hname.
Qed.

End SaveName.

(** The saved variant of the example keeps its name "SKU-1" in an update. *)
Lemma save_keeps_name_witness :
  exists saved w',
    @save (Reference.collaborators 9) More.saved More.bare
      (Example.world More.stocked) = (inr saved, w')
    /\ name saved = Some "SKU-1".
Proof.
  destruct (@save (Reference.collaborators 9) More.saved More.bare
              (Example.world More.stocked)) as [[exc|saved] w'] eqn:Hrun;
    [by vm_compute in Hrun|].
  exists saved, w'. split; [done|].
  by apply (proj1 (@save_keeps_name (Reference.collaborators 9) _ _ _ _ _
                     Hrun)).
Defined.
